(** * The [get] command of the aqi tool (cmd/get.go)

    A shallow embedding of [getAqi] and [dataUi].  Everything the command
    calls outside the repository (net/http, io/ioutil, encoding/json, termui)
    is an oracle in the record [Env]; what the command does to the outside
    (the request it sends, the lines it logs, the terminal calls) is the list
    of [Effect]s of a run, in the order in which they happen. *)

From Stdlib Require Import QArith Qpower Lqa.
From Stdlib Require Import ZArith String Ascii List Bool Lia.
From Stdlib Require Import Uint63 PrimFloat FloatOps SpecFloat.
From Stdlib Require Import DecimalString.
Import ListNotations.

Local Open Scope string_scope.
Local Open Scope list_scope.
Local Open Scope Z_scope.

(** Go's [+] on strings. *)
Infix "+:+" := String.append (at level 60, right associativity).

(** ** Go values *)

Module Go.

(** An [error] value is identified with its [Error()] text. *)
Definition error := string.

Definition minInt : Z := - 2 ^ 63.
Definition maxInt : Z := 2 ^ 63 - 1.

(** The integer part of a finite float64, rounding toward zero. *)
Definition truncate (f : float) : option Z :=
  match Prim2SF f with
  | S754_zero _ => Some 0
  | S754_finite s m e =>
      let v := if 0 <=? e then Z.shiftl (Z.pos m) e
               else Z.shiftr (Z.pos m) (- e) in
      Some (if s then - v else v)
  | S754_infinity _ | S754_nan => None
  end.

(** The conversion [int(f)] of a float64 on a 64-bit target.  When the
    truncated value does not fit an [int] the language leaves the result to
    the implementation: [outOfRange] stands for that choice. *)
Definition int (outOfRange : float -> Z) (f : float) : Z :=
  match truncate f with
  | Some z => if (minInt <=? z) && (z <=? maxInt) then z else outOfRange f
  | None => outOfRange f
  end.

(** [strconv.Itoa]. *)
Definition Itoa (z : Z) : string := NilZero.string_of_int (Z.to_int z).

(** The text of the run-time panic of a nil pointer dereference. *)
Definition nilDereference : string :=
  "runtime error: invalid memory address or nil pointer dereference".

End Go.

(** ** Data model (get.go, lines 38-75) *)

Module AqiInfo.
Record t := mk {
  Pollutant : string;
  Concentration : float;
  Category : string
}.
End AqiInfo.

Module Station.
Record t := mk {
  CO : float;
  NO2 : float;
  OZONE : float;
  PM10 : float;
  PM25 : float;
  CountryCode : string;
  Division : string;
  Latitude : float;
  Longitude : float;
  PostalCode : string;
  City : string;
  Place : string;
  State : string;
  UpdatedAt : string;
  AQI : float;
  AqiInfo : AqiInfo.t
}.
End Station.

Module Aqi.
Record t := mk {
  City : string;
  Place : string;
  State : string;
  UpdatedAt : string;
  AQI : float;
  AqiInfo : AqiInfo.t
}.
End Aqi.

Module ApiResponse.
Record t := mk {
  Message : string;
  Stations : list Station.t
}.
End ApiResponse.

(** The five persistent string flags registered by [init] (lines 31-35);
    [Flag.city cmd] is [cmd.Flag("city").Value.String()], and so on.  A flag
    that is not given has the default value, the empty string. *)
Module Flag.
Record Command := mk {
  city : string;
  postal : string;
  country : string;
  latitude : string;
  longitude : string
}.
End Flag.

(** ** net/http *)

Record Request := mkRequest {
  Method : string;
  URL : string;
  Header : list (string * string)
}.

(** [req.Header.Set(key, value)]: the value replaces any earlier one. *)
Definition Header_Set (req : Request) (key value : string) : Request :=
  {| Method := Method req;
     URL := URL req;
     Header := (key, value)
               :: filter (fun kv => negb (String.eqb (fst kv) key)) (Header req) |}.

(** A response body is a handle: its content is what [ioutil.ReadAll] gives. *)
Definition ReadCloser := nat.

Record Response := mkResponse { Body : ReadCloser }.

(** ** termui *)

Inductive Color :=
| ColorClear | ColorBlack | ColorRed | ColorGreen | ColorYellow
| ColorBlue | ColorMagenta | ColorCyan | ColorWhite.

Definition Rectangle := (Z * Z * Z * Z)%type.

Record Gauge := mkGauge {
  Percent : Z;
  Title : string;
  BarColor : Color;
  GaugeRect : Rectangle
}.

Record List := mkList {
  Rows : list string;
  ListRect : Rectangle
}.

Inductive Drawable :=
| DGauge (g : Gauge)
| DList (l : List).

Record UiEvent := mkEvent { ID : string }.

(** ** The outside world *)

Record Env := mkEnv {
  (** [http.NewRequest] fails when the URL does not parse. *)
  urlParseError : string -> option Go.error;
  (** [http.DefaultClient.Do]: the response (nil or not) and the error. *)
  httpDo : Request -> option Response * option Go.error;
  (** [ioutil.ReadAll]: the bytes read and the error. *)
  ioReadAll : ReadCloser -> string * option Go.error;
  (** [Body.Close]. *)
  bodyClose : ReadCloser -> option Go.error;
  (** [json.Unmarshal] into an [ApiResponse]. *)
  jsonUnmarshal : string -> ApiResponse.t + Go.error;
  (** [json.Marshal] of an [Aqi]. *)
  jsonMarshal : Aqi.t -> string + Go.error;
  (** [ui.Init] for the view opened after [n] views have been closed. *)
  uiInitError : nat -> option Go.error;
  (** The events the channel of [ui.PollEvents] delivers to that view, in
      order; after the last one none arrives any more. *)
  uiEventQueue : nat -> list UiEvent;
  (** The result of [int(f)] when [f] is out of range. *)
  intOutOfRange : float -> Z;
  (** The bar colour [widgets.NewGauge] takes from the theme. *)
  themeGaugeBar : Color
}.

(** ** Runs *)

Inductive Effect :=
| EHttpDo (req : Request)
| EReadAll (body : ReadCloser)
| EBodyClose (body : ReadCloser)
| ELog (line : string)
| EUiInit
| EUiRender (ws : list Drawable)
| EUiPoll (e : UiEvent)
| EUiClose.

(** How a computation stops without returning: [os.Exit], a panic, or a
    channel receive that waits for ever. *)
Inductive Halt :=
| Exit (code : Z)
| Panic (msg : string)
| Blocked.

Inductive Res (A : Type) :=
| Val (a : A)
| Stop (h : Halt).
Arguments Val {A} a.
Arguments Stop {A} h.

(** The terminal: what is drawn on it ([None] while termui is not
    initialised) and how many views have been closed so far. *)
Record Ui := mkUi {
  screen : option (list Drawable);
  views : nat
}.

Record Run (A : Type) := mkRun {
  result : Res A;
  effects : list Effect;
  final : Ui
}.
Arguments mkRun {A} result effects final.
Arguments result {A} r.
Arguments effects {A} r.
Arguments final {A} r.

Definition M (A : Type) := Ui -> Run A.

Definition ret {A} (a : A) : M A := fun u => mkRun (Val a) [] u.

Definition bind {A B} (m : M A) (f : A -> M B) : M B := fun u =>
  let r := m u in
  match result r with
  | Val a =>
      let r' := f a (final r) in
      mkRun (result r') (effects r ++ effects r') (final r')
  | Stop h => mkRun (Stop h) (effects r) (final r)
  end.

Notation "x <- m ;; k" := (bind m (fun x => k))
  (at level 61, m at next level, right associativity).
Notation "m ;; k" := (bind m (fun _ => k))
  (at level 61, right associativity).

Definition emit (e : Effect) : M unit := fun u => mkRun (Val tt) [e] u.

Definition halt {A} (h : Halt) : M A := fun u => mkRun (Stop h) [] u.

(** [log.Println]. *)
Definition logPrintln (line : string) : M unit := emit (ELog line).

(** [log.Fatal] and [log.Fatalf]: the line is logged, then [os.Exit(1)]. *)
Definition logFatal {A} (line : string) : M A :=
  emit (ELog line) ;; halt (Exit 1).

(** [defer d] in front of [body].  The deferred call runs when the function
    returns and when it panics; [os.Exit] runs no deferred call, and a
    function that never returns never reaches it. *)
Definition defer {A} (d : M unit) (body : M A) : M A := fun u =>
  let r := body u in
  let after (res : Res A) :=
    let r' := d (final r) in
    mkRun (match result r' with Val _ => res | Stop h => Stop h end)
          (effects r ++ effects r') (final r') in
  match result r with
  | Val a => after (Val a)
  | Stop (Panic msg) => after (Stop (Panic msg))
  | Stop (Exit _) | Stop Blocked => r
  end.

(** [for _, x := range l { body }]. *)
Fixpoint forRange {A} (l : list A) (body : A -> M unit) : M unit :=
  match l with
  | [] => ret tt
  | x :: rest => body x ;; forRange rest body
  end.

(** ** The command *)

Definition isEmpty (s : string) : bool := String.eqb s "".
Definition nonEmpty (s : string) : bool := negb (String.eqb s "").

(** Lines 89-98: the URL for the location flags. *)
Definition buildUrl (city postal country latitude longitude : string)
  : M string :=
  if nonEmpty city && isEmpty postal && isEmpty country
     && isEmpty latitude && isEmpty longitude then
    ret ("http://localhost:3000/api?city=" +:+ city)
  else if nonEmpty postal && nonEmpty country
          && isEmpty latitude && isEmpty longitude then
    ret ("http://localhost:3000/api?postal=" +:+ postal
         +:+ "&country=" +:+ country)
  else if nonEmpty latitude && nonEmpty longitude then
    ret ("http://localhost:3000/api?lat=" +:+ latitude
         +:+ "&lng=" +:+ longitude)
  else
    logFatal "please specify the location by using any of the following flags: --city, --postal, --country, --latitude, --longitude".

(** The event loop of lines 200-206, on the events still to come. *)
Definition isQuitKey (id : string) : bool :=
  String.eqb id "q" || String.eqb id "<C-c>".

Fixpoint eventLoop (uiEvents : list UiEvent) : M unit :=
  match uiEvents with
  | [] => halt Blocked
  | e :: rest =>
      emit (EUiPoll e) ;;
      if isQuitKey (ID e) then ret tt else eventLoop rest
  end.

Section Command.

Variable env : Env.

Definition http_NewRequest (method url : string) : Request + Go.error :=
  match urlParseError env url with
  | Some err => inr err
  | None => inl (mkRequest method url [])
  end.

Definition http_Do (req : Request) : M (option Response * option Go.error) :=
  emit (EHttpDo req) ;; ret (httpDo env req).

Definition ioutil_ReadAll (b : ReadCloser) : M (string * option Go.error) :=
  emit (EReadAll b) ;; ret (ioReadAll env b).

Definition Body_Close (b : ReadCloser) : M (option Go.error) :=
  emit (EBodyClose b) ;; ret (bodyClose env b).

Definition ui_Init : M (option Go.error) := fun u =>
  match uiInitError env (views u) with
  | Some err => mkRun (Val (Some err)) [EUiInit] u
  | None => mkRun (Val None) [EUiInit] (mkUi (Some []) (views u))
  end.

Definition ui_Close : M unit := fun u =>
  mkRun (Val tt) [EUiClose] (mkUi None (S (views u))).

Definition ui_Render (ws : list Drawable) : M unit := fun u =>
  mkRun (Val tt) [EUiRender ws] (mkUi (Some ws) (views u)).

Definition ui_PollEvents : M (list UiEvent) := fun u =>
  mkRun (Val (uiEventQueue env (views u))) [] u.

Definition int (f : float) : Z := Go.int (intOutOfRange env) f.

Definition NewGauge : Gauge := mkGauge 0 "" (themeGaugeBar env) (0, 0, 0, 0).
Definition NewList : List := mkList [] (0, 0, 0, 0).

(** Lines 157-175: the gauge [g]. *)
Definition gaugeWidget (aqi : float) (aqiInfo : AqiInfo.t) : Gauge :=
  let g := NewGauge in
  let g := mkGauge (int ((aqi / 500) * 100)%float)
                   (Title g) (BarColor g) (GaugeRect g) in
  let g := mkGauge (Percent g) (Title g) (BarColor g) (0, 0, 50, 5) in
  let g := mkGauge (Percent g) ("Air Quality Index = " +:+ Go.Itoa (int aqi))
                   (BarColor g) (GaugeRect g) in
  let category := AqiInfo.Category aqiInfo in
  let withBar (c : Color) := mkGauge (Percent g) (Title g) c (GaugeRect g) in
  if String.eqb category "Good" then withBar ColorGreen
  else if String.eqb category "Moderate" then withBar ColorYellow
  else if String.eqb category "Unhealthy for Sensitive Groups" then withBar ColorRed
  else if String.eqb category "Unhealthy" then withBar ColorRed
  else if String.eqb category "Very Unhealthy" then withBar ColorRed
  else if String.eqb category "Hazardous" then withBar ColorRed
  else g.

(** Lines 178-185: [list]. *)
Definition pollutantList (aqiInfo : AqiInfo.t) : List :=
  let list := NewList in
  let list := mkList
    [ "Pollutant: " +:+ AqiInfo.Pollutant aqiInfo;
      "Concentration: " +:+ Go.Itoa (int (AqiInfo.Concentration aqiInfo));
      "Category: " +:+ AqiInfo.Category aqiInfo ] (ListRect list) in
  mkList (Rows list) (50, 0, 100, 5).

(** Lines 188-196: [list2]. *)
Definition locationList (station : Station.t) : List :=
  let list2 := NewList in
  let list2 := mkList
    [ "City: " +:+ Station.City station;
      "State: " +:+ Station.State station;
      "Place: " +:+ Station.Place station;
      "Updated At: " +:+ Station.UpdatedAt station ] (ListRect list2) in
  mkList (Rows list2) (0, 5, 50, 10).

(** Lines 146-207. *)
Definition dataUi (aqi : float) (station : Station.t) : M unit :=
  let aqiInfo := Station.AqiInfo station in
  err <- ui_Init ;;
  match err with
  | Some err => logFatal ("failed to initialize termui: " +:+ err)
  | None =>
      defer ui_Close
        (let g := gaugeWidget aqi aqiInfo in
         let list := pollutantList aqiInfo in
         let list2 := locationList station in
         ui_Render [DGauge g; DList list; DList list2] ;;
         uiEvents <- ui_PollEvents ;;
         eventLoop uiEvents)
  end.

(** The deferred closure of lines 109-114, applied to [res.Body]. *)
Definition closeBody (body : ReadCloser) : M unit :=
  err <- Body_Close body ;;
  match err with
  | Some err => logFatal ("error occured: " +:+ err)
  | None => ret tt
  end.

(** The body of the loop of lines 128-143. *)
Definition reportStation (station : Station.t) : M unit :=
  let aqi := Aqi.mk (Station.City station) (Station.Place station)
                    (Station.State station) (Station.UpdatedAt station)
                    (Station.AQI station) (Station.AqiInfo station) in
  match jsonMarshal env aqi with
  | inr err => logFatal ("unable to marshall the response : " +:+ err)
  | inl json =>
      logPrintln json ;;
      dataUi (Aqi.AQI aqi) station
  end.

(** Lines 77-144. *)
Definition getAqi (cmd : Flag.Command) : M unit :=
  let city := Flag.city cmd in
  let postal := Flag.postal cmd in
  let country := Flag.country cmd in
  let latitude := Flag.latitude cmd in
  let longitude := Flag.longitude cmd in
  url <- buildUrl city postal country latitude longitude ;;
  match http_NewRequest "GET" url with
  | inr err => logFatal err
  | inl req =>
      let req := Header_Set req "Content-Type" "application/json" in
      res <- http_Do req ;;
      match fst res with
      | None => halt (Panic Go.nilDereference)
      | Some res =>
          defer (closeBody (Body res))
            (body <- ioutil_ReadAll (Body res) ;;
             match jsonUnmarshal env (fst body) with
             | inr err =>
                 logFatal ("unable to unmarshell the response : " +:+ err)
             | inl aqi =>
                 (if (length (ApiResponse.Stations aqi) =? 0)%nat
                  then logFatal "no stations found" else ret tt) ;;
                 forRange (ApiResponse.Stations aqi) reportStation
             end)
      end
  end.

End Command.

(** A fresh process: termui not initialised, no view closed yet. *)
Definition start : Ui := mkUi None 0.

(** ** The three location shapes, as the specification words them *)

Inductive Location :=
| ByCity (city : string)
| ByPostalCountry (postal country : string)
| ByCoordinates (latitude longitude : string).

(** A location is well formed when every flag of its shape is given. *)
Definition wellFormed (loc : Location) : Prop :=
  match loc with
  | ByCity c => c <> ""
  | ByPostalCountry p o => p <> "" /\ o <> ""
  | ByCoordinates l g => l <> "" /\ g <> ""
  end.

(** The flags that give exactly this location and nothing else. *)
Definition flagsOf (loc : Location) : Flag.Command :=
  match loc with
  | ByCity c => Flag.mk c "" "" "" ""
  | ByPostalCountry p o => Flag.mk "" p o "" ""
  | ByCoordinates l g => Flag.mk "" "" "" l g
  end.

(** The query parameters of a location, values copied as they are. *)
Definition queryOf (loc : Location) : string :=
  match loc with
  | ByCity c => "city=" +:+ c
  | ByPostalCountry p o => "postal=" +:+ p +:+ "&country=" +:+ o
  | ByCoordinates l g => "lat=" +:+ l +:+ "&lng=" +:+ g
  end.

Definition baseUrl : string := "http://localhost:3000/api?".

(** The request [getAqi] sends for a URL. *)
Definition requestFor (url : string) : Request :=
  mkRequest "GET" url [("Content-Type", "application/json")].

(** The flags of a command, as the query builder receives them. *)
Definition urlOf (cmd : Flag.Command) : M string :=
  buildUrl (Flag.city cmd) (Flag.postal cmd) (Flag.country cmd)
           (Flag.latitude cmd) (Flag.longitude cmd).

Definition usageMessage : string :=
  "please specify the location by using any of the following flags: --city, --postal, --country, --latitude, --longitude".

(** ** Basic facts about runs *)

Lemma bind_Val {A B} (m : M A) (f : A -> M B) (u : Ui) (a : A) :
  result (m u) = Val a ->
  bind m f u = mkRun (result (f a (final (m u))))
                     (effects (m u) ++ effects (f a (final (m u))))
                     (final (f a (final (m u)))).
Proof. intros H. unfold bind. rewrite H. reflexivity. Qed.

Lemma bind_Stop {A B} (m : M A) (f : A -> M B) (u : Ui) (h : Halt) :
  result (m u) = Stop h ->
  bind m f u = mkRun (Stop h) (effects (m u)) (final (m u)).
Proof. intros H. unfold bind. rewrite H. reflexivity. Qed.

Lemma isEmpty_true (s : string) : isEmpty s = true <-> s = "".
Proof. unfold isEmpty. apply String.eqb_eq. Qed.

Lemma nonEmpty_true (s : string) : nonEmpty s = true <-> s <> "".
Proof.
  unfold nonEmpty. rewrite negb_true_iff. apply String.eqb_neq.
Qed.

Lemma nonEmpty_of (s : string) : s <> "" -> nonEmpty s = true.
Proof. apply nonEmpty_true. Qed.

(** What the query builder does on every input: it returns a URL exactly
    when one of its three tests passes, and logs the usage message and exits
    with status 1 otherwise. *)
Lemma buildUrl_cases (c p o l g : string) (u : Ui) :
  (c <> "" /\ p = "" /\ o = "" /\ l = "" /\ g = "" /\
   buildUrl c p o l g u = mkRun (Val (baseUrl +:+ "city=" +:+ c)) [] u)
  \/ (p <> "" /\ o <> "" /\ l = "" /\ g = "" /\
      buildUrl c p o l g u
      = mkRun (Val (baseUrl +:+ "postal=" +:+ p +:+ "&country=" +:+ o)) [] u)
  \/ (l <> "" /\ g <> "" /\
      buildUrl c p o l g u
      = mkRun (Val (baseUrl +:+ "lat=" +:+ l +:+ "&lng=" +:+ g)) [] u)
  \/ (~ (l <> "" /\ g <> "") /\ ~ (p <> "" /\ o <> "" /\ l = "" /\ g = "") /\
      ~ (c <> "" /\ p = "" /\ o = "" /\ l = "" /\ g = "") /\
      buildUrl c p o l g u = mkRun (Stop (Exit 1)) [ELog usageMessage] u).
Proof.
  unfold buildUrl, isEmpty, nonEmpty.
  destruct (String.eqb_spec c ""), (String.eqb_spec p ""),
    (String.eqb_spec o ""), (String.eqb_spec l ""), (String.eqb_spec g "");
    subst; cbn [negb andb];
    first
      [ left; repeat split; solve [ assumption | reflexivity ]
      | right; left; repeat split; solve [ assumption | reflexivity ]
      | right; right; left; repeat split; solve [ assumption | reflexivity ]
      | right; right; right;
        repeat split; try reflexivity; intros H; decompose [and] H;
        congruence ].
Qed.

(** The usage error is fatal: nothing follows it in [getAqi]. *)
Lemma getAqi_usage_error (env : Env) (cmd : Flag.Command) (u : Ui) :
  urlOf cmd u = mkRun (Stop (Exit 1)) [ELog usageMessage] u ->
  getAqi env cmd u = mkRun (Stop (Exit 1)) [ELog usageMessage] u.
Proof.
  intros H. unfold getAqi. unfold urlOf in H.
  rewrite (bind_Stop _ _ u (Exit 1)); rewrite H; reflexivity.
Qed.

(** After the URL is built and parsed, the request is sent. *)
Lemma getAqi_sends (env : Env) (cmd : Flag.Command) (u : Ui) (url : string) :
  urlOf cmd u = mkRun (Val url) [] u ->
  urlParseError env url = None ->
  exists rest,
    effects (getAqi env cmd u) = EHttpDo (requestFor url) :: rest.
Proof.
  intros Hurl Hparse. unfold getAqi. unfold urlOf in Hurl.
  rewrite (bind_Val _ _ u url) by (rewrite Hurl; reflexivity).
  rewrite Hurl. cbn [final effects result app].
  unfold http_NewRequest. rewrite Hparse.
  unfold bind at 1. cbn. 
  destruct (fst (httpDo env _)); cbn; eauto.
Qed.

(** ** A concrete world, for running the command *)

Module Sample.

Definition quote (s : string) : string :=
  String (ascii_of_nat 34) s +:+ String (ascii_of_nat 34) "".

Definition gulberg : Station.t :=
  Station.mk 0.5%float 12%float 30%float 80%float 152%float
             "PK" "Punjab" 31.5%float 74.25%float "54000"
             "Lahore" "Gulberg" "Punjab" "2022-03-01T10:00:00Z"
             250%float (AqiInfo.mk "PM2.5" 152%float "Very Unhealthy").

Definition clifton : Station.t :=
  Station.mk 0.25%float 8%float 21%float 40%float 35%float
             "PK" "Sindh" 24.75%float 67%float "75600"
             "Karachi" "Clifton" "Sindh" "2022-03-01T10:05:00Z"
             145%float (AqiInfo.mk "PM10" 40%float "Moderate").

(** Three response bodies: two stations, no station, not JSON. *)
Definition bodyTwo : string :=
  "{" +:+ quote "message" +:+ ":" +:+ quote "ok" +:+ ","
      +:+ quote "stations" +:+ ":[{...},{...}]}".
Definition bodyNone : string :=
  "{" +:+ quote "message" +:+ ":" +:+ quote "nothing here" +:+ ","
      +:+ quote "stations" +:+ ":[]}".
Definition bodyBad : string := "not json".

Definition unmarshal (body : string) : ApiResponse.t + Go.error :=
  if String.eqb body bodyTwo then inl (ApiResponse.mk "ok" [gulberg; clifton])
  else if String.eqb body bodyNone then inl (ApiResponse.mk "nothing here" [])
  else inr "invalid character 'o' in literal null (expecting 'u')".

Definition marshal (a : Aqi.t) : string + Go.error :=
  inl ("{" +:+ quote "city" +:+ ":" +:+ quote (Aqi.City a) +:+ ","
           +:+ quote "placeName" +:+ ":" +:+ quote (Aqi.Place a) +:+ "}").

Definition q : UiEvent := mkEvent "q".
Definition ctrlC : UiEvent := mkEvent "<C-c>".
Definition resize : UiEvent := mkEvent "<Resize>".
Definition keyX : UiEvent := mkEvent "x".

(** The first view gets a resize, an [x] and then [q]; every later view
    gets an [x] and then the interrupt key. *)
Definition events (n : nat) : list UiEvent :=
  match n with
  | O => [resize; keyX; q; keyX]
  | S _ => [keyX; ctrlC]
  end.

(** The world in which the server answers with body number [handle]:
    0 for two stations, 1 for none, 2 for text that is not JSON. *)
Definition content (b : ReadCloser) : string :=
  match b with
  | O => bodyTwo
  | S O => bodyNone
  | _ => bodyBad
  end.

Definition world (handle : ReadCloser) : Env :=
  mkEnv (fun _ => None)
        (fun _ => (Some (mkResponse handle), None))
        (fun b => (content b, None))
        (fun _ => None)
        unmarshal marshal
        (fun _ => None)
        events
        (fun _ => Go.minInt)
        ColorWhite.

(** The same, but reading the body reports an error after all of it has
    arrived. *)
Definition worldReadError (handle : ReadCloser) : Env :=
  mkEnv (fun _ => None)
        (fun _ => (Some (mkResponse handle), None))
        (fun b => (content b, Some "unexpected EOF"))
        (fun _ => None)
        unmarshal marshal
        (fun _ => None)
        events
        (fun _ => Go.minInt)
        ColorWhite.

(** The world in which nothing listens on port 3000. *)
Definition worldRefused : Env :=
  mkEnv (fun _ => None)
        (fun _ => (None, Some "dial tcp 127.0.0.1:3000: connect: connection refused"))
        (fun b => (content b, None))
        (fun _ => None)
        unmarshal marshal
        (fun _ => None)
        events
        (fun _ => Go.minInt)
        ColorWhite.

(** The world in which nobody ever presses a quit key. *)
Definition worldNoQuit : Env :=
  mkEnv (fun _ => None)
        (fun _ => (Some (mkResponse O), None))
        (fun b => (content b, None))
        (fun _ => None)
        unmarshal marshal
        (fun _ => None)
        (fun _ => [resize; keyX])
        (fun _ => Go.minInt)
        ColorWhite.

Definition lahore : Flag.Command := Flag.mk "Lahore" "" "" "" "".

End Sample.

(** ** The query builder *)

(** The usage error on some flag combinations outside the three shapes. *)
Lemma usage_error_examples (u : Ui) :
  let fatal := mkRun (Stop (Exit 1)) [ELog usageMessage] u in
  urlOf (Flag.mk "" "" "" "" "") u = fatal
  /\ urlOf (Flag.mk "" "" "PK" "" "") u = fatal
  /\ urlOf (Flag.mk "" "54000" "" "" "") u = fatal
  /\ urlOf (Flag.mk "" "" "" "31.5" "") u = fatal
  /\ urlOf (Flag.mk "Lahore" "54000" "" "" "") u = fatal
  /\ urlOf (Flag.mk "Lahore" "" "" "31.5" "") u = fatal.
Proof. repeat split. Qed.

(** C1 (evaluation of the code where it departs from the claim): a valid
    shape together with extra flags is not rejected.  With the city flag
    next to both coordinates, or next to postal code and country, or with
    all five flags set, the query builder returns a URL and logs nothing,
    and [getAqi] goes on to send the request. *)
Theorem extra_flags_are_not_rejected :
  urlOf (Flag.mk "Lahore" "" "" "31.5" "74.3") start
  = mkRun (Val "http://localhost:3000/api?lat=31.5&lng=74.3") [] start
  /\ urlOf (Flag.mk "Lahore" "54000" "PK" "" "") start
     = mkRun (Val "http://localhost:3000/api?postal=54000&country=PK") [] start
  /\ urlOf (Flag.mk "Lahore" "54000" "PK" "31.5" "74.3") start
     = mkRun (Val "http://localhost:3000/api?lat=31.5&lng=74.3") [] start
  /\ exists rest,
       effects (getAqi (Sample.world O) (Flag.mk "Lahore" "" "" "31.5" "74.3") start)
       = EHttpDo (requestFor "http://localhost:3000/api?lat=31.5&lng=74.3") :: rest.
Proof.
  repeat split.
  apply getAqi_sends; reflexivity.
Qed.

(** C2: for each of the three valid shapes the URL is the fixed base followed
    by the query parameters of the shape with the flag values copied as they
    are, nothing is logged, and this URL is the one of the request sent. *)
Theorem valid_shape_builds_raw_url (env : Env) (loc : Location) (u : Ui) :
  wellFormed loc ->
  urlOf (flagsOf loc) u = mkRun (Val (baseUrl +:+ queryOf loc)) [] u
  /\ (urlParseError env (baseUrl +:+ queryOf loc) = None ->
      exists rest,
        effects (getAqi env (flagsOf loc) u)
        = EHttpDo (requestFor (baseUrl +:+ queryOf loc)) :: rest).
Proof.
  intros Hwf.
  assert (Hurl : urlOf (flagsOf loc) u
                 = mkRun (Val (baseUrl +:+ queryOf loc)) [] u).
  { destruct loc as [c | p o | l g]; cbn in Hwf; unfold urlOf, buildUrl; cbn.
    - rewrite (nonEmpty_of c Hwf). reflexivity.
    - destruct Hwf as [Hp Ho].
      rewrite (nonEmpty_of p Hp), (nonEmpty_of o Ho). reflexivity.
    - destruct Hwf as [Hl Hg].
      rewrite (nonEmpty_of l Hl), (nonEmpty_of g Hg). reflexivity. }
  split; [exact Hurl|].
  intros Hparse. now apply getAqi_sends.
Qed.

Lemma valid_shape_builds_raw_url_witness :
  (urlOf (Flag.mk "Lahore" "" "" "" "") start
   = mkRun (Val "http://localhost:3000/api?city=Lahore") [] start)
  /\ (urlOf (Flag.mk "" "54000" "PK" "" "") start
      = mkRun (Val "http://localhost:3000/api?postal=54000&country=PK") [] start)
  /\ (urlOf (Flag.mk "" "" "" "31.5" "74.3") start
      = mkRun (Val "http://localhost:3000/api?lat=31.5&lng=74.3") [] start).
Proof.
  split; [|split].
  - apply (valid_shape_builds_raw_url (Sample.world O) (ByCity "Lahore") start).
    simpl. discriminate.
  - apply (valid_shape_builds_raw_url (Sample.world O)
             (ByPostalCountry "54000" "PK") start).
    simpl. split; discriminate.
  - apply (valid_shape_builds_raw_url (Sample.world O)
             (ByCoordinates "31.5" "74.3") start).
    simpl. split; discriminate.
Defined.

(** ** The terminal view *)

(** The quit key and the interrupt key. *)
Definition quitEvent (e : UiEvent) : Prop := ID e = "q" \/ ID e = "<C-c>".

Definition otherEvent (e : UiEvent) : Prop := ~ quitEvent e.

(** Whether a quit event is among the events to come. *)
Definition dismissed (evs : list UiEvent) : bool :=
  existsb (fun e => isQuitKey (ID e)) evs.

(** The events up to the first quit event, that one included. *)
Fixpoint untilQuit (evs : list UiEvent) : list UiEvent :=
  match evs with
  | [] => []
  | e :: rest => if isQuitKey (ID e) then [e] else e :: untilQuit rest
  end.

(** The three widgets of the view of a station. *)
Definition viewOf (env : Env) (aqi : float) (station : Station.t)
  : list Drawable :=
  [ DGauge (gaugeWidget env aqi (Station.AqiInfo station));
    DList (pollutantList env (Station.AqiInfo station));
    DList (locationList station) ].

Lemma isQuitKey_iff (e : UiEvent) : isQuitKey (ID e) = true <-> quitEvent e.
Proof.
  unfold isQuitKey, quitEvent.
  rewrite orb_true_iff, !String.eqb_eq. reflexivity.
Qed.

Lemma isQuitKey_other (e : UiEvent) : otherEvent e -> isQuitKey (ID e) = false.
Proof.
  intros H. destruct (isQuitKey (ID e)) eqn:E; [|reflexivity].
  apply isQuitKey_iff in E. contradiction.
Qed.

Lemma untilQuit_first (pre : list UiEvent) (e : UiEvent) (rest : list UiEvent) :
  Forall otherEvent pre -> quitEvent e ->
  untilQuit (pre ++ e :: rest) = pre ++ [e]
  /\ dismissed (pre ++ e :: rest) = true.
Proof.
  intros Hpre He. induction Hpre as [|x pre Hx _ IH]; cbn.
  - apply isQuitKey_iff in He. rewrite He. split; reflexivity.
  - rewrite (isQuitKey_other x Hx). cbn.
    destruct IH as [IH1 IH2]. rewrite IH1. split; [reflexivity|exact IH2].
Qed.

Lemma untilQuit_none (evs : list UiEvent) :
  Forall otherEvent evs -> untilQuit evs = evs /\ dismissed evs = false.
Proof.
  induction 1 as [|x evs Hx _ [IH1 IH2]]; cbn; [split; reflexivity|].
  rewrite (isQuitKey_other x Hx), IH1. cbn. split; [reflexivity|exact IH2].
Qed.

Lemma dismissed_iff (evs : list UiEvent) :
  dismissed evs = true <-> Exists quitEvent evs.
Proof.
  unfold dismissed. rewrite existsb_exists, Exists_exists.
  split; intros [e [Hin He]]; exists e; (split; [exact Hin|]);
    now apply isQuitKey_iff.
Qed.

(** The loop polls exactly the events up to the first quit event, returns
    there, waits for ever when there is none, and leaves the terminal as it
    found it. *)
Lemma eventLoop_run (evs : list UiEvent) (u : Ui) :
  eventLoop evs u
  = mkRun (if dismissed evs then Val tt else Stop Blocked)
          (map EUiPoll (untilQuit evs)) u.
Proof.
  induction evs as [|e evs IH]; [reflexivity|].
  cbn [eventLoop dismissed existsb untilQuit].
  unfold bind, emit. cbn [result final effects].
  destruct (isQuitKey (ID e)); cbn; [reflexivity|].
  rewrite IH. reflexivity.
Qed.

(** Events that are not quit events are polled and passed over: the loop
    goes on with what follows them. *)
Lemma eventLoop_skips (pre rest : list UiEvent) (u : Ui) :
  Forall otherEvent pre ->
  eventLoop (pre ++ rest) u
  = mkRun (result (eventLoop rest u))
          (map EUiPoll pre ++ effects (eventLoop rest u))
          (final (eventLoop rest u)).
Proof.
  induction 1 as [|x pre Hx _ IH]; cbn [app map].
  - destruct (eventLoop rest u); reflexivity.
  - cbn [eventLoop]. unfold bind at 1, emit. cbn [result final effects].
    rewrite (isQuitKey_other x Hx), IH. reflexivity.
Qed.

Lemma dataUi_init_failed (env : Env) (aqi : float) (station : Station.t)
      (u : Ui) (err : Go.error) :
  uiInitError env (views u) = Some err ->
  dataUi env aqi station u
  = mkRun (Stop (Exit 1))
          [EUiInit; ELog ("failed to initialize termui: " +:+ err)] u.
Proof.
  intros H. unfold dataUi, bind, ui_Init. rewrite H. reflexivity.
Qed.

Lemma dataUi_run (env : Env) (aqi : float) (station : Station.t) (u : Ui) :
  uiInitError env (views u) = None ->
  dataUi env aqi station u
  = let evs := uiEventQueue env (views u) in
    let view := viewOf env aqi station in
    if dismissed evs
    then mkRun (Val tt)
               ([EUiInit; EUiRender view] ++ map EUiPoll (untilQuit evs)
                ++ [EUiClose])
               (mkUi None (S (views u)))
    else mkRun (Stop Blocked)
               ([EUiInit; EUiRender view] ++ map EUiPoll evs)
               (mkUi (Some view) (views u)).
Proof.
  intros H. unfold dataUi, bind at 1, ui_Init. rewrite H.
  cbn [result final effects].
  unfold defer, bind, ui_Render, ui_PollEvents, ui_Close.
  cbn [result final effects views screen].
  rewrite eventLoop_run. cbn [result final effects views screen].
  fold (viewOf env aqi station).
  destruct (dismissed (uiEventQueue env (views u))) eqn:E;
    cbn [result final effects views screen app].
  - reflexivity.
  - assert (Hall : Forall otherEvent (uiEventQueue env (views u))).
    { apply Forall_forall. intros e Hin He.
      assert (dismissed (uiEventQueue env (views u)) = true)
        by (apply dismissed_iff, Exists_exists; eauto).
      congruence. }
    destruct (untilQuit_none _ Hall) as [-> _]. reflexivity.
Qed.

(** Whatever [dataUi] renders is the view of its station. *)
Lemma dataUi_renders (env : Env) (aqi : float) (station : Station.t)
      (u : Ui) (ws : list Drawable) :
  In (EUiRender ws) (effects (dataUi env aqi station u)) ->
  ws = viewOf env aqi station.
Proof.
  destruct (uiInitError env (views u)) as [err|] eqn:E.
  - rewrite (dataUi_init_failed env aqi station u err E). cbn.
    intros [H|[H|[]]]; discriminate.
  - rewrite (dataUi_run env aqi station u E). cbv zeta.
    assert (Hpoll : forall evs, ~ In (EUiRender ws) (map EUiPoll evs)).
    { intros evs Hin. apply in_map_iff in Hin.
      destruct Hin as [x [Hx _]]. discriminate. }
    destruct (dismissed _); cbn [effects app]; intros [H|[H|H]];
      try discriminate; try congruence.
    + apply in_app_or in H. destruct H as [H|[H|[]]];
        [ now apply Hpoll in H | discriminate ].
    + now apply Hpoll in H.
Qed.

(** ** The gauge *)

(** Conversions of some float64 values, truncated toward zero. *)
Lemma truncate_examples :
  Go.truncate 2.75%float = Some 2
  /\ Go.truncate (-2.75)%float = Some (-2)
  /\ Go.truncate 0.5%float = Some 0
  /\ Go.truncate neg_zero = Some 0
  /\ Go.truncate 4294967296.5%float = Some 4294967296
  /\ Go.truncate infinity = None
  /\ Go.truncate nan = None.
Proof. vm_compute. repeat split. Qed.

(** The float64 of a whole number. *)
Definition wholeAqi (n : Z) : float := PrimFloat.of_uint63 (Uint63.of_Z n).

(** The percentage for a whole AQI, as the real quotient would give it, and
    the three whole values from 0 to 500 at which float64 rounding makes the
    code fall one short of it. *)
Definition exactPercent (n : Z) : Z := n * 100 / 500.

Definition roundedDown (n : Z) : bool :=
  (n =? 145) || (n =? 285) || (n =? 290).

Definition percentAgrees (n : Z) : bool :=
  match Go.truncate ((wholeAqi n / 500) * 100)%float with
  | Some z =>
      (z =? (if roundedDown n then exactPercent n - 1 else exactPercent n))
      && (0 <=? z) && (z <=? 100)
  | None => false
  end.

Lemma percentAgrees_upto_500 :
  forallb percentAgrees (map Z.of_nat (seq 0 501)) = true.
Proof. vm_compute. reflexivity. Qed.

(** The quotient and the product are those of float64, rounded each time.
    For a whole AQI from 0 to 500 the percentage is the truncated exact
    quotient, except at 145, 285 and 290, where it is one less; it always
    lies between 0 and 100. *)
Lemma gauge_percent_on_whole_aqi (env : Env) (n : Z) :
  0 <= n <= 500 ->
  int env ((wholeAqi n / 500) * 100)%float
  = (if roundedDown n then exactPercent n - 1 else exactPercent n)
  /\ 0 <= int env ((wholeAqi n / 500) * 100)%float <= 100.
Proof.
  intros Hn.
  assert (Hin : In n (map Z.of_nat (seq 0 501))).
  { apply in_map_iff. exists (Z.to_nat n). split; [lia|].
    apply in_seq. lia. }
  pose proof (proj1 (forallb_forall _ _) percentAgrees_upto_500 n Hin) as H.
  unfold percentAgrees in H. unfold int, Go.int.
  destruct (Go.truncate ((wholeAqi n / 500) * 100)%float) as [z|];
    [|discriminate].
  apply andb_true_iff in H. destruct H as [H Hhi].
  apply andb_true_iff in H. destruct H as [Heq Hlo].
  apply Z.eqb_eq in Heq. apply Z.leb_le in Hlo, Hhi.
  assert (Hmin : (Go.minInt <=? z) = true)
    by (apply Z.leb_le; unfold Go.minInt; lia).
  assert (Hmax : (z <=? Go.maxInt) = true)
    by (apply Z.leb_le; unfold Go.maxInt; lia).
  rewrite Hmin, Hmax. cbn [andb]. split; [exact Heq | lia].
Qed.

Lemma gauge_percent_rounding (env : Env) :
  int env ((145 / 500) * 100)%float = 28
  /\ int env ((35 / 500) * 100)%float = 7.
Proof. vm_compute. split; reflexivity. Qed.

(** ** The percentage against exact arithmetic *)

(** The exact value of a finite float64, as a rational number: the
    mantissa times the power of two, with the sign. *)
Definition valueOf (f : float) : option Q :=
  match Prim2SF f with
  | S754_zero _ => Some 0%Q
  | S754_finite s m e =>
      let v := (inject_Z (Z.pos m) * Qpower 2 e)%Q in
      Some (if s then (- v)%Q else v)
  | S754_infinity _ | S754_nan => None
  end.

(** [z] is [q] with its fraction dropped, that is, rounded toward zero. *)
Definition truncationOf (q : Q) (z : Z) : Prop :=
  (0 <= q -> inject_Z z <= q /\ q < inject_Z z + 1)%Q
  /\ (q <= 0 -> inject_Z z - 1 < q /\ q <= inject_Z z)%Q.

Lemma inject_Z_lt_succ (z z' : Z) :
  (inject_Z z < inject_Z z' + 1)%Q -> z <= z'.
Proof.
  intros H. change 1%Q with (inject_Z 1) in H.
  rewrite <- inject_Z_plus, <- Zlt_Qlt in H. lia.
Qed.

Lemma truncationOf_unique (q : Q) (z z' : Z) :
  truncationOf q z -> truncationOf q z' -> z = z'.
Proof.
  intros [Hpos Hneg] [Hpos' Hneg'].
  destruct (Qlt_le_dec q 0) as [Hq | Hq].
  - destruct (Hneg (Qlt_le_weak _ _ Hq)) as [H1 H2].
    destruct (Hneg' (Qlt_le_weak _ _ Hq)) as [H1' H2'].
    assert (Ha : z' <= z) by (apply inject_Z_lt_succ; lra).
    assert (Hb : z <= z') by (apply inject_Z_lt_succ; lra).
    lia.
  - destruct (Hpos Hq) as [H1 H2]. destruct (Hpos' Hq) as [H1' H2'].
    assert (Ha : z <= z') by (apply inject_Z_lt_succ; lra).
    assert (Hb : z' <= z) by (apply inject_Z_lt_succ; lra).
    lia.
Qed.

Lemma truncationOf_between (q : Q) (z : Z) :
  0 <= z -> (inject_Z z <= q)%Q -> (q < inject_Z z + 1)%Q ->
  truncationOf q z.
Proof.
  intros Hz Hlo Hhi. split; [auto|].
  intros Hq.
  assert (H0 : (0 <= inject_Z z)%Q)
    by (change 0%Q with (inject_Z 0); rewrite <- Zle_Qle; exact Hz).
  split; lra.
Qed.

Lemma truncationOf_opp (q : Q) (z : Z) :
  truncationOf q z -> truncationOf (- q)%Q (- z).
Proof.
  intros [Hpos Hneg]. unfold truncationOf. rewrite inject_Z_opp.
  split; intros Hq.
  - destruct Hneg as [H1 H2]; [lra|]. split; lra.
  - destruct Hpos as [H1 H2]; [lra|]. split; lra.
Qed.

(** The magnitude of a finite float64 and the whole number the conversion
    makes of it. *)
Lemma magnitude_truncation (m : positive) (e : Z) :
  truncationOf (inject_Z (Z.pos m) * Qpower 2 e)%Q
               (if 0 <=? e then Z.shiftl (Z.pos m) e
                else Z.shiftr (Z.pos m) (- e)).
Proof.
  destruct (Z.leb_spec 0 e) as [He | He].
  - rewrite Z.shiftl_mul_pow2 by exact He.
    assert (Hv : (inject_Z (Z.pos m) * Qpower 2 e
                  == inject_Z (Z.pos m * 2 ^ e))%Q).
    { rewrite inject_Z_mult. rewrite (Zpower_Qpower 2 e He). reflexivity. }
    apply truncationOf_between.
    + apply Z.mul_nonneg_nonneg; [lia | apply Z.pow_nonneg; lia].
    + rewrite Hv. apply Qle_refl.
    + rewrite Hv. lra.
  - rewrite Z.shiftr_div_pow2 by lia.
    set (d := 2 ^ (- e)).
    assert (Hd : 0 < d) by (apply Z.pow_pos_nonneg; lia).
    assert (HP : (0 < inject_Z d)%Q)
      by (change 0%Q with (inject_Z 0); rewrite <- Zlt_Qlt; exact Hd).
    assert (Hv : (inject_Z (Z.pos m) * Qpower 2 e
                  == inject_Z (Z.pos m) / inject_Z d)%Q).
    { unfold Qdiv. apply Qmult_comp; [reflexivity|].
      replace e with (- - e) at 1 by lia.
      rewrite Qpower_opp. apply Qinv_comp.
      symmetry. apply (Zpower_Qpower 2 (- e)). lia. }
    pose proof (Z.mul_div_le (Z.pos m) d Hd) as Hle.
    pose proof (Z.mul_succ_div_gt (Z.pos m) d Hd) as Hgt.
    apply truncationOf_between.
    + apply Z.div_pos; lia.
    + rewrite Hv. apply Qle_shift_div_l; [exact HP|].
      rewrite <- inject_Z_mult, <- Zle_Qle. lia.
    + rewrite Hv. apply Qlt_shift_div_r; [exact HP|].
      change 1%Q with (inject_Z 1).
      rewrite <- inject_Z_plus, <- inject_Z_mult, <- Zlt_Qlt. lia.
Qed.

(** [Go.truncate] gives the exact value of the float rounded toward zero,
    and gives a number for every float that has a value. *)
Lemma truncate_truncationOf (f : float) (q : Q) :
  valueOf f = Some q ->
  exists z, Go.truncate f = Some z /\ truncationOf q z.
Proof.
  unfold valueOf, Go.truncate.
  destruct (Prim2SF f) as [s | s | | s m e]; try discriminate.
  - intros H. injection H as <-. exists 0. split; [reflexivity|].
    apply truncationOf_between; [lia | apply Qle_refl | reflexivity].
  - intros H. injection H as <-. cbv zeta.
    eexists. split; [reflexivity|].
    destruct s; [apply truncationOf_opp|]; apply magnitude_truncation.
Qed.

(** C6 (as amended): the percentage of the gauge that is rendered is the
    float64 value of [(aqi/500)*100] rounded toward zero, whenever that
    whole number fits a 64-bit [int]; the quotient and the product are the
    float64 ones, each rounded to the nearest float64.  It is 50 for an AQI
    of 250, 100 for 500 and 0 for 0. *)
Theorem gauge_percent_is_float_truncation (env : Env) (aqi : float)
        (station : Station.t) (u : Ui) (g : Gauge) (others : list Drawable) :
  In (EUiRender (DGauge g :: others)) (effects (dataUi env aqi station u)) ->
  (forall q z,
      valueOf ((aqi / 500) * 100)%float = Some q ->
      truncationOf q z ->
      Go.minInt <= z <= Go.maxInt ->
      Percent g = z)
  /\ (aqi = 250%float -> Percent g = 50)
  /\ (aqi = 500%float -> Percent g = 100)
  /\ (aqi = 0%float -> Percent g = 0).
Proof.
  intros Hin. apply dataUi_renders in Hin.
  unfold viewOf in Hin. injection Hin as Hg _. subst g.
  assert (Hp : Percent (gaugeWidget env aqi (Station.AqiInfo station))
               = Go.int (intOutOfRange env) ((aqi / 500) * 100)%float).
  { unfold gaugeWidget, int.
    repeat match goal with
           | |- context [if ?b then _ else _] => destruct b
           end; reflexivity. }
  rewrite Hp. split.
  - intros q z Hq Hz [Hlo Hhi].
    destruct (truncate_truncationOf _ q Hq) as [z' [Hz' Htr]].
    assert (z' = z) by (apply (truncationOf_unique q); assumption).
    subst z'. unfold Go.int. rewrite Hz'.
    apply Z.leb_le in Hlo, Hhi. rewrite Hlo, Hhi. reflexivity.
  - repeat split; intros ->; vm_compute; reflexivity.
Qed.

(** An AQI of 251: the float64 value of [(251/500)*100] lies between 50
    and 51, and the percentage is 50. *)
Lemma gauge_percent_is_float_truncation_witness :
  Percent (gaugeWidget (Sample.world O) 251%float
                       (Station.AqiInfo Sample.gulberg)) = 50.
Proof.
  assert (Hin : In (EUiRender
                      (DGauge (gaugeWidget (Sample.world O) 251%float
                                 (Station.AqiInfo Sample.gulberg))
                       :: [DList (pollutantList (Sample.world O)
                                    (Station.AqiInfo Sample.gulberg));
                           DList (locationList Sample.gulberg)]))
                   (effects (dataUi (Sample.world O) 251%float
                               Sample.gulberg start)))
    by (simpl; right; left; reflexivity).
  destruct (valueOf ((251 / 500) * 100)%float) as [q|] eqn:Hq;
    [|vm_compute in Hq; discriminate Hq].
  apply (proj1 (gauge_percent_is_float_truncation
                  (Sample.world O) 251%float Sample.gulberg start _ _ Hin)
               q 50 Hq).
  - vm_compute in Hq. injection Hq as <-. split.
    + intros _. split; vm_compute; congruence.
    + intros H. exfalso. vm_compute in H. apply H. reflexivity.
  - unfold Go.minInt, Go.maxInt. lia.
Defined.

(** C6 (the claim as it is written fails): with the quotient and the
    product taken exactly, [(145/500)*100] is 29, and 29 is its truncation;
    the gauge rendered for an AQI of 145 has the percentage 28, which is
    not. *)
Lemma gauge_percent_145_is_not_exact :
  In (EUiRender (viewOf (Sample.world O) 145%float Sample.clifton))
     (effects (dataUi (Sample.world O) 145%float Sample.clifton start))
  /\ Percent (gaugeWidget (Sample.world O) 145%float
                (Station.AqiInfo Sample.clifton)) = 28
  /\ exists q,
       valueOf 145%float = Some q
       /\ (q == 145)%Q
       /\ truncationOf ((q / 500) * 100)%Q 29
       /\ ~ truncationOf ((q / 500) * 100)%Q
            (Percent (gaugeWidget (Sample.world O) 145%float
                        (Station.AqiInfo Sample.clifton))).
Proof.
  split; [simpl; right; left; reflexivity|].
  split; [vm_compute; reflexivity|].
  destruct (valueOf 145%float) as [q|] eqn:Hq;
    [|vm_compute in Hq; discriminate Hq].
  exists q. split; [reflexivity|].
  vm_compute in Hq. injection Hq as <-.
  split; [vm_compute; reflexivity|].
  split.
  - split.
    + intros _. split; vm_compute; congruence.
    + intros H. exfalso. vm_compute in H. apply H. reflexivity.
  - intros [Hpos _]. destruct Hpos as [_ Hlt]; [vm_compute; congruence|].
    vm_compute in Hlt. discriminate Hlt.
Qed.

(** C7: the bar colour of the gauge that is rendered is green for "Good",
    yellow for "Moderate", red for the four other categories, and for any
    other string the colour the new gauge came with. *)
Theorem gauge_bar_color (env : Env) (aqi : float) (station : Station.t)
        (u : Ui) (g : Gauge) (others : list Drawable) :
  In (EUiRender (DGauge g :: others)) (effects (dataUi env aqi station u)) ->
  let category := AqiInfo.Category (Station.AqiInfo station) in
  (category = "Good" -> BarColor g = ColorGreen)
  /\ (category = "Moderate" -> BarColor g = ColorYellow)
  /\ (category = "Unhealthy for Sensitive Groups" \/ category = "Unhealthy"
      \/ category = "Very Unhealthy" \/ category = "Hazardous" ->
      BarColor g = ColorRed)
  /\ (category <> "Good" -> category <> "Moderate" ->
      category <> "Unhealthy for Sensitive Groups" ->
      category <> "Unhealthy" -> category <> "Very Unhealthy" ->
      category <> "Hazardous" ->
      BarColor g = BarColor (NewGauge env)).
Proof.
  intros Hin. apply dataUi_renders in Hin.
  unfold viewOf in Hin. injection Hin as Hg _. subst g.
  cbv zeta. unfold gaugeWidget.
  destruct (Station.AqiInfo station) as [pollutant concentration category].
  cbn [AqiInfo.Category].
  repeat split.
  - intros ->. reflexivity.
  - intros ->. reflexivity.
  - intros [-> | [-> | [-> | ->]]]; reflexivity.
  - intros H1 H2 H3 H4 H5 H6.
    apply String.eqb_neq in H1, H2, H3, H4, H5, H6.
    rewrite H1, H2, H3, H4, H5, H6. reflexivity.
Qed.

Lemma gauge_bar_color_witness :
  BarColor (gaugeWidget (Sample.world O) 250%float
                        (Station.AqiInfo Sample.gulberg)) = ColorRed.
Proof.
  refine (proj1 (proj2 (proj2 (gauge_bar_color
                          (Sample.world O) 250%float Sample.gulberg start _
                          [DList (pollutantList (Sample.world O)
                                    (Station.AqiInfo Sample.gulberg));
                           DList (locationList Sample.gulberg)] _))) _).
  - simpl. right. left. reflexivity.
  - simpl. right. right. left. reflexivity.
Defined.

(** ** The event loop *)

(** C9: once the view of a station is rendered, the view function returns
    exactly when a quit event ("q" or "<C-c>") arrives: it has then polled
    the events up to the first quit event and nothing else, every earlier
    event led to no terminal call at all, and the terminal is closed on the
    way out.  Events that are not quit events are passed over, the loop
    going on with what follows them.  When no quit event ever arrives the
    function does not return, and the view stays on the screen as it was
    rendered. *)
Theorem view_returns_on_first_quit_event (env : Env) (aqi : float)
        (station : Station.t) (u : Ui) :
  uiInitError env (views u) = None ->
  let r := dataUi env aqi station u in
  let events := uiEventQueue env (views u) in
  let view := viewOf env aqi station in
  (result r = Val tt <-> Exists quitEvent events)
  /\ (forall pre rest u',
         Forall otherEvent pre ->
         eventLoop (pre ++ rest) u'
         = mkRun (result (eventLoop rest u'))
                 (map EUiPoll pre ++ effects (eventLoop rest u'))
                 (final (eventLoop rest u')))
  /\ (forall pre e rest,
         events = pre ++ e :: rest -> Forall otherEvent pre -> quitEvent e ->
         result r = Val tt
         /\ effects r = [EUiInit; EUiRender view] ++ map EUiPoll (pre ++ [e])
                        ++ [EUiClose])
  /\ (Forall otherEvent events ->
         result r = Stop Blocked
         /\ effects r = [EUiInit; EUiRender view] ++ map EUiPoll events
         /\ screen (final r) = Some view).
Proof.
  intros Hinit. cbv zeta. rewrite (dataUi_run env aqi station u Hinit).
  cbv zeta. split; [|split; [|split]].
  - rewrite <- dismissed_iff.
    destruct (dismissed _); cbn; split; congruence.
  - intros pre rest u' Hpre. now apply eventLoop_skips.
  - intros pre e rest Heq Hpre He.
    destruct (untilQuit_first pre e rest Hpre He) as [Hu Hd].
    rewrite Heq, Hd, Hu. split; reflexivity.
  - intros Hall. destruct (untilQuit_none _ Hall) as [_ Hd].
    rewrite Hd. repeat split.
Qed.

Lemma view_returns_on_first_quit_event_witness :
  result (dataUi (Sample.world O) 250%float Sample.gulberg start) = Val tt
  /\ effects (dataUi (Sample.world O) 250%float Sample.gulberg start)
     = [EUiInit; EUiRender (viewOf (Sample.world O) 250%float Sample.gulberg);
        EUiPoll Sample.resize; EUiPoll Sample.keyX; EUiPoll Sample.q;
        EUiClose].
Proof.
  refine (proj1 (proj2 (proj2 (view_returns_on_first_quit_event
                          (Sample.world O) 250%float Sample.gulberg start _)))
                [Sample.resize; Sample.keyX] Sample.q [Sample.keyX] _ _ _).
  - reflexivity.
  - reflexivity.
  - repeat constructor; intros [H|H]; discriminate H.
  - left. reflexivity.
Defined.

(** ** Runs of [getAqi] *)

(** A run that comes after some effects. *)
Definition prepend {A} (es : list Effect) (r : Run A) : Run A :=
  mkRun (result r) (es ++ effects r) (final r).

Lemma prepend_nil {A} (r : Run A) : prepend [] r = r.
Proof. destruct r. reflexivity. Qed.

Lemma prepend_prepend {A} (es es' : list Effect) (r : Run A) :
  prepend es (prepend es' r) = prepend (es ++ es') r.
Proof. unfold prepend. cbn. rewrite app_assoc. reflexivity. Qed.

Lemma bind_prepend {A B} (m : M A) (f : A -> M B) (u u' : Ui) (a : A)
      (es : list Effect) :
  m u = mkRun (Val a) es u' -> bind m f u = prepend es (f a u').
Proof. intros H. unfold bind. rewrite H. reflexivity. Qed.

Section Runs.

Variable env : Env.

(** [http.NewRequest] fails: the error is logged and the process exits
    with status 1 before anything is sent. *)
Lemma getAqi_request_error (cmd : Flag.Command) (u : Ui) (url : string)
      (err : Go.error) :
  urlOf cmd u = mkRun (Val url) [] u ->
  urlParseError env url = Some err ->
  getAqi env cmd u = mkRun (Stop (Exit 1)) [ELog err] u.
Proof.
  intros Hurl Hparse. unfold getAqi. unfold urlOf in Hurl.
  rewrite (bind_prepend _ _ u u url [] Hurl).
  unfold http_NewRequest. rewrite Hparse. reflexivity.
Qed.

(** The request is sent and [Do] gives no response. *)
Lemma getAqi_no_response (cmd : Flag.Command) (u : Ui) (url : string) :
  urlOf cmd u = mkRun (Val url) [] u ->
  urlParseError env url = None ->
  fst (httpDo env (requestFor url)) = None ->
  getAqi env cmd u
  = mkRun (Stop (Panic Go.nilDereference)) [EHttpDo (requestFor url)] u.
Proof.
  intros Hurl Hparse Hdo. unfold getAqi. unfold urlOf in Hurl.
  rewrite (bind_prepend _ _ u u url [] Hurl).
  unfold http_NewRequest. rewrite Hparse.
  change (Header_Set (mkRequest "GET" url []) "Content-Type" "application/json")
    with (requestFor url).
  unfold http_Do, bind, emit, ret. cbn [result final effects].
  rewrite Hdo. reflexivity.
Qed.

(** The request is sent and [Do] gives a response: the body is read and
    decoded, with the close of the body deferred. *)
Lemma getAqi_response (cmd : Flag.Command) (u : Ui) (url : string)
      (res : Response) :
  urlOf cmd u = mkRun (Val url) [] u ->
  urlParseError env url = None ->
  fst (httpDo env (requestFor url)) = Some res ->
  getAqi env cmd u
  = prepend [EHttpDo (requestFor url)]
      (defer (closeBody env (Body res))
         (fun u' =>
            prepend [EReadAll (Body res)]
              (match jsonUnmarshal env (fst (ioReadAll env (Body res))) with
               | inr err =>
                   logFatal ("unable to unmarshell the response : " +:+ err) u'
               | inl aqi =>
                   match ApiResponse.Stations aqi with
                   | [] => logFatal "no stations found" u'
                   | _ :: _ =>
                       forRange (ApiResponse.Stations aqi) (reportStation env) u'
                   end
               end)) u).
Proof.
  intros Hurl Hparse Hdo. unfold getAqi. unfold urlOf in Hurl.
  rewrite (bind_prepend _ _ u u url [] Hurl).
  unfold http_NewRequest. rewrite Hparse.
  change (Header_Set (mkRequest "GET" url []) "Content-Type" "application/json")
    with (requestFor url).
  rewrite (bind_prepend _ _ u u (httpDo env (requestFor url))
             [EHttpDo (requestFor url)]) by reflexivity.
  rewrite Hdo. rewrite prepend_prepend. cbn [app].
  f_equal. unfold defer. 
  assert (Hbody :
    (body <- ioutil_ReadAll env (Body res) ;;
     match jsonUnmarshal env (fst body) with
     | inl aqi =>
         (if (length (ApiResponse.Stations aqi) =? 0)%nat
          then logFatal "no stations found" else ret tt) ;;
         forRange (ApiResponse.Stations aqi) (reportStation env)
     | inr err => logFatal ("unable to unmarshell the response : " +:+ err)
     end) u
    = prepend [EReadAll (Body res)]
        match jsonUnmarshal env (fst (ioReadAll env (Body res))) with
        | inl aqi =>
            match ApiResponse.Stations aqi with
            | [] => logFatal "no stations found" u
            | _ :: _ =>
                forRange (ApiResponse.Stations aqi) (reportStation env) u
            end
        | inr err =>
            logFatal ("unable to unmarshell the response : " +:+ err) u
        end).
  { rewrite (bind_prepend _ _ u u (ioReadAll env (Body res))
               [EReadAll (Body res)]) by reflexivity.
    f_equal.
    destruct (jsonUnmarshal env (fst (ioReadAll env (Body res))))
      as [aqi|err]; [|reflexivity].
    destruct (ApiResponse.Stations aqi) as [|s l]; [reflexivity|].
    cbn [length Nat.eqb].
    rewrite (bind_prepend _ _ u u tt []) by reflexivity.
    apply prepend_nil. }
  rewrite Hbody. reflexivity.
Qed.

End Runs.

(** The lines logged in a run, in order. *)
Fixpoint logged (es : list Effect) : list string :=
  match es with
  | [] => []
  | ELog line :: rest => line :: logged rest
  | _ :: rest => logged rest
  end.

(** The reduced summary of a station: city, place, state, updated-at, AQI
    and AQI-info. *)
Definition summaryOf (s : Station.t) : Aqi.t :=
  Aqi.mk (Station.City s) (Station.Place s) (Station.State s)
         (Station.UpdatedAt s) (Station.AQI s) (Station.AqiInfo s).

Section Stations.

Variable env : Env.

(** The JSON line of the summary of a station. *)
Definition lineOf (s : Station.t) : string :=
  match jsonMarshal env (summaryOf s) with
  | inl json => json
  | inr _ => ""
  end.

(** Station [s], handled after [i] views have been closed, is seen through:
    its summary encodes, the terminal initialises and a quit event
    arrives. *)
Definition viewed (i : nat) (s : Station.t) : Prop :=
  (exists json, jsonMarshal env (summaryOf s) = inl json)
  /\ uiInitError env i = None
  /\ dismissed (uiEventQueue env i) = true.

Fixpoint allViewed (i : nat) (l : list Station.t) : Prop :=
  match l with
  | [] => True
  | s :: rest => viewed i s /\ allViewed (S i) rest
  end.

(** What a station that is seen through adds to the run: the summary
    line, then the view from [ui.Init] to [ui.Close]. *)
Definition segment (i : nat) (s : Station.t) : list Effect :=
  [ELog (lineOf s); EUiInit; EUiRender (viewOf env (Station.AQI s) s)]
  ++ map EUiPoll (untilQuit (uiEventQueue env i)) ++ [EUiClose].

Fixpoint segments (i : nat) (l : list Station.t) : list Effect :=
  match l with
  | [] => []
  | s :: rest => segment i s ++ segments (S i) rest
  end.

(** What a station that is not seen through adds to the run. *)
Definition brokenSegment (i : nat) (s : Station.t) : list Effect :=
  match jsonMarshal env (summaryOf s) with
  | inr err => [ELog ("unable to marshall the response : " +:+ err)]
  | inl json =>
      ELog json :: EUiInit
      :: match uiInitError env i with
         | Some err => [ELog ("failed to initialize termui: " +:+ err)]
         | None => EUiRender (viewOf env (Station.AQI s) s)
                   :: map EUiPoll (uiEventQueue env i)
         end
  end.

Lemma reportStation_viewed (i : nat) (s : Station.t) :
  viewed i s ->
  reportStation env s (mkUi None i)
  = mkRun (Val tt) (segment i s) (mkUi None (S i)).
Proof.
  intros [[json Hjson] [Hinit Hquit]].
  unfold reportStation, segment, lineOf.
  fold (summaryOf s). rewrite Hjson.
  rewrite (bind_prepend _ _ (mkUi None i) (mkUi None i) tt [ELog json])
    by reflexivity.
  cbn [Aqi.AQI summaryOf].
  rewrite dataUi_run by exact Hinit.
  cbv zeta. cbn [views]. rewrite Hquit. reflexivity.
Qed.

Lemma reportStation_broken (i : nat) (s : Station.t) :
  ~ viewed i s ->
  exists h,
    reportStation env s (mkUi None i)
    = mkRun (Stop h) (brokenSegment i s)
            (mkUi (match jsonMarshal env (summaryOf s), uiInitError env i with
                   | inl _, None => Some (viewOf env (Station.AQI s) s)
                   | _, _ => None
                   end) i)
    /\ (h = Exit 1 \/ h = Blocked).
Proof.
  intros Hnot. unfold reportStation, brokenSegment.
  fold (summaryOf s).
  destruct (jsonMarshal env (summaryOf s)) as [json|err] eqn:Hjson.
  - rewrite (bind_prepend _ _ (mkUi None i) (mkUi None i) tt [ELog json])
      by reflexivity.
    cbn [Aqi.AQI summaryOf].
    destruct (uiInitError env i) as [err|] eqn:Hinit.
    + rewrite (dataUi_init_failed env _ s (mkUi None i) err Hinit).
      exists (Exit 1). split; [reflexivity|now left].
    + rewrite dataUi_run by exact Hinit. cbv zeta. cbn [views].
      destruct (dismissed (uiEventQueue env i)) eqn:Hquit.
      * exfalso. apply Hnot. repeat split; eauto.
      * exists Blocked. split; [reflexivity|now right].
  - exists (Exit 1). split; [reflexivity|now left].
Qed.

(** The stations that are seen through are handled one after the other,
    and the loop goes on with the rest from there. *)
Lemma forRange_viewed (done rest : list Station.t) (i : nat) :
  allViewed i done ->
  forRange (done ++ rest) (reportStation env) (mkUi None i)
  = prepend (segments i done)
      (forRange rest (reportStation env)
         (mkUi None (i + length done)%nat)).
Proof.
  revert i. induction done as [|s done IH]; intros i Hall.
  - cbn [app length segments]. rewrite Nat.add_0_r, prepend_nil.
    reflexivity.
  - destruct Hall as [Hs Hall]. cbn [app forRange length segments].
    rewrite (bind_prepend _ _ _ _ tt _ (reportStation_viewed i s Hs)).
    rewrite (IH (S i) Hall), prepend_prepend.
    replace (S i + length done)%nat with (i + S (length done))%nat by lia.
    reflexivity.
Qed.

Lemma forRange_all_viewed (l : list Station.t) (i : nat) :
  allViewed i l ->
  forRange l (reportStation env) (mkUi None i)
  = mkRun (Val tt) (segments i l) (mkUi None (i + length l)%nat).
Proof.
  intros Hall. rewrite <- (app_nil_r l) at 1.
  rewrite (forRange_viewed l [] i Hall). cbn [forRange].
  unfold prepend, ret. cbn. rewrite app_nil_r. reflexivity.
Qed.

Lemma forRange_broken (done : list Station.t) (s : Station.t)
      (later : list Station.t) (i : nat) :
  allViewed i done -> ~ viewed (i + length done)%nat s ->
  exists h u',
    forRange (done ++ s :: later) (reportStation env) (mkUi None i)
    = mkRun (Stop h)
            (segments i done ++ brokenSegment (i + length done)%nat s) u'
    /\ (h = Exit 1 \/ h = Blocked).
Proof.
  intros Hall Hnot. rewrite (forRange_viewed done (s :: later) i Hall).
  destruct (reportStation_broken _ s Hnot) as [h [Heq Hh]].
  cbn [forRange]. unfold bind. rewrite Heq. cbn [result effects final].
  eexists h, _. split; [reflexivity|exact Hh].
Qed.

End Stations.

Section Outcomes.

Variable env : Env.

(** The body does not decode: the error is logged and the process exits
    with status 1; the deferred close does not run. *)
Lemma getAqi_decode_error (cmd : Flag.Command) (u : Ui) (url : string)
      (res : Response) (err : Go.error) :
  urlOf cmd u = mkRun (Val url) [] u ->
  urlParseError env url = None ->
  fst (httpDo env (requestFor url)) = Some res ->
  jsonUnmarshal env (fst (ioReadAll env (Body res))) = inr err ->
  getAqi env cmd u
  = mkRun (Stop (Exit 1))
          [EHttpDo (requestFor url); EReadAll (Body res);
           ELog ("unable to unmarshell the response : " +:+ err)] u.
Proof.
  intros Hurl Hparse Hdo Hjson.
  rewrite (getAqi_response env cmd u url res Hurl Hparse Hdo).
  unfold defer. rewrite Hjson. reflexivity.
Qed.

Lemma getAqi_no_stations (cmd : Flag.Command) (u : Ui) (url : string)
      (res : Response) (resp : ApiResponse.t) :
  urlOf cmd u = mkRun (Val url) [] u ->
  urlParseError env url = None ->
  fst (httpDo env (requestFor url)) = Some res ->
  jsonUnmarshal env (fst (ioReadAll env (Body res))) = inl resp ->
  ApiResponse.Stations resp = [] ->
  getAqi env cmd u
  = mkRun (Stop (Exit 1))
          [EHttpDo (requestFor url); EReadAll (Body res);
           ELog "no stations found"] u.
Proof.
  intros Hurl Hparse Hdo Hjson Hnone.
  rewrite (getAqi_response env cmd u url res Hurl Hparse Hdo).
  unfold defer. rewrite Hjson, Hnone. reflexivity.
Qed.

(** What closing the body adds at the end of a run that returns. *)
Definition closing (b : ReadCloser) : list Effect :=
  EBodyClose b
  :: match bodyClose env b with
     | Some err => [ELog ("error occured: " +:+ err)]
     | None => []
     end.

Lemma getAqi_all_viewed (cmd : Flag.Command) (url : string) (res : Response)
      (resp : ApiResponse.t) :
  urlOf cmd start = mkRun (Val url) [] start ->
  urlParseError env url = None ->
  fst (httpDo env (requestFor url)) = Some res ->
  jsonUnmarshal env (fst (ioReadAll env (Body res))) = inl resp ->
  ApiResponse.Stations resp <> [] ->
  allViewed env 0 (ApiResponse.Stations resp) ->
  getAqi env cmd start
  = mkRun (match bodyClose env (Body res) with
           | Some _ => Stop (Exit 1)
           | None => Val tt
           end)
          ([EHttpDo (requestFor url); EReadAll (Body res)]
           ++ segments env 0 (ApiResponse.Stations resp)
           ++ closing (Body res))
          (mkUi None (length (ApiResponse.Stations resp))).
Proof.
  intros Hurl Hparse Hdo Hjson Hsome Hall.
  rewrite (getAqi_response env cmd start url res Hurl Hparse Hdo).
  unfold defer. rewrite Hjson.
  destruct (ApiResponse.Stations resp) as [|s l] eqn:E; [congruence|].
  unfold start. rewrite (forRange_all_viewed env (s :: l) 0 Hall).
  cbn [prepend result effects final Nat.add].
  unfold closeBody, closing, Body_Close, bind, emit, ret, logFatal, halt.
  cbn [result effects final].
  destruct (bodyClose env (Body res)); cbn [result effects final];
    unfold prepend; cbn [result effects final app];
    rewrite <- ?app_assoc; reflexivity.
Qed.

Lemma getAqi_broken (cmd : Flag.Command) (url : string) (res : Response)
      (resp : ApiResponse.t) (done : list Station.t) (s : Station.t)
      (later : list Station.t) :
  urlOf cmd start = mkRun (Val url) [] start ->
  urlParseError env url = None ->
  fst (httpDo env (requestFor url)) = Some res ->
  jsonUnmarshal env (fst (ioReadAll env (Body res))) = inl resp ->
  ApiResponse.Stations resp = done ++ s :: later ->
  allViewed env 0 done -> ~ viewed env (length done) s ->
  (result (getAqi env cmd start) = Stop (Exit 1)
   \/ result (getAqi env cmd start) = Stop Blocked)
  /\ effects (getAqi env cmd start)
     = [EHttpDo (requestFor url); EReadAll (Body res)]
       ++ segments env 0 done ++ brokenSegment env (length done) s.
Proof.
  intros Hurl Hparse Hdo Hjson Hsplit Hall Hnot.
  rewrite (getAqi_response env cmd start url res Hurl Hparse Hdo).
  unfold defer. rewrite Hjson.
  destruct (ApiResponse.Stations resp) as [|s0 l0] eqn:E;
    [destruct done; discriminate|].
  rewrite Hsplit. unfold start.
  destruct (forRange_broken env done s later 0 Hall Hnot)
    as [h [u' [Heq Hh]]].
  rewrite Heq. cbn [prepend result effects final Nat.add].
  destruct Hh as [-> | ->]; cbn [result effects final app];
    (split; [auto | reflexivity]).
Qed.

End Outcomes.

(** ** Failures of the request, the read and the decode *)

(** C3 (evaluation of the code where it departs from the claim): the error
    of reading the response body is dropped.  In the world where
    [ioutil.ReadAll] hands over the whole body together with an error, the
    run is the same as without the error: no error is logged, both stations
    are reported and the command returns, so the process ends with status
    0. *)
Theorem read_error_is_ignored :
  ioReadAll (Sample.worldReadError O) O
  = (Sample.bodyTwo, Some "unexpected EOF")
  /\ result (getAqi (Sample.worldReadError O) Sample.lahore start) = Val tt
  /\ logged (effects (getAqi (Sample.worldReadError O) Sample.lahore start))
     = [lineOf (Sample.worldReadError O) Sample.gulberg;
        lineOf (Sample.worldReadError O) Sample.clifton]
  /\ getAqi (Sample.worldReadError O) Sample.lahore start
     = getAqi (Sample.world O) Sample.lahore start.
Proof. vm_compute. repeat split. Qed.

(** C4: when [Do] fails, giving an error and no response, the error is not
    looked at: the run ends in the panic of a nil pointer dereference right
    after the request, with nothing logged, nothing read and nothing
    closed. *)
Theorem failed_request_panics (env : Env) (cmd : Flag.Command) (u : Ui)
        (url : string) (err : Go.error) :
  urlOf cmd u = mkRun (Val url) [] u ->
  urlParseError env url = None ->
  httpDo env (requestFor url) = (None, Some err) ->
  getAqi env cmd u
  = mkRun (Stop (Panic Go.nilDereference)) [EHttpDo (requestFor url)] u
  /\ logged (effects (getAqi env cmd u)) = [].
Proof.
  intros Hurl Hparse Hdo.
  assert (H : getAqi env cmd u
              = mkRun (Stop (Panic Go.nilDereference))
                      [EHttpDo (requestFor url)] u).
  { apply getAqi_no_response; try assumption. rewrite Hdo. reflexivity. }
  rewrite H. split; reflexivity.
Qed.

Lemma failed_request_panics_witness :
  getAqi Sample.worldRefused Sample.lahore start
  = mkRun (Stop (Panic Go.nilDereference))
          [EHttpDo (requestFor "http://localhost:3000/api?city=Lahore")] start.
Proof.
  refine (proj1 (failed_request_panics
                   Sample.worldRefused Sample.lahore start
                   "http://localhost:3000/api?city=Lahore"
                   "dial tcp 127.0.0.1:3000: connect: connection refused"
                   _ _ _)); reflexivity.
Defined.

(** C5: a response that decodes to an envelope without stations is fatal,
    whatever its message: "no stations found" is the only line logged, the
    process exits with status 1, and the terminal is never initialised. *)
Theorem empty_station_list_is_fatal (env : Env) (cmd : Flag.Command) (u : Ui)
        (url : string) (res : Response) (message : string) :
  urlOf cmd u = mkRun (Val url) [] u ->
  urlParseError env url = None ->
  fst (httpDo env (requestFor url)) = Some res ->
  jsonUnmarshal env (fst (ioReadAll env (Body res)))
  = inl (ApiResponse.mk message []) ->
  let r := getAqi env cmd u in
  result r = Stop (Exit 1)
  /\ effects r = [EHttpDo (requestFor url); EReadAll (Body res);
                  ELog "no stations found"]
  /\ logged (effects r) = ["no stations found"]
  /\ ~ In EUiInit (effects r)
  /\ final r = u.
Proof.
  intros Hurl Hparse Hdo Hjson. cbv zeta.
  rewrite (getAqi_no_stations env cmd u url res _ Hurl Hparse Hdo Hjson eq_refl).
  cbn. repeat split.
  intros [H|[H|[H|[]]]]; discriminate.
Qed.

Lemma empty_station_list_is_fatal_witness :
  result (getAqi (Sample.world 1%nat) Sample.lahore start) = Stop (Exit 1)
  /\ effects (getAqi (Sample.world 1%nat) Sample.lahore start)
     = [EHttpDo (requestFor "http://localhost:3000/api?city=Lahore");
        EReadAll 1%nat; ELog "no stations found"].
Proof.
  pose proof (empty_station_list_is_fatal
                (Sample.world 1%nat) Sample.lahore start
                "http://localhost:3000/api?city=Lahore" (mkResponse 1%nat)
                "nothing here" eq_refl eq_refl eq_refl eq_refl) as H.
  split; [exact (proj1 H) | exact (proj1 (proj2 H))].
Defined.

(** ** Closing the response body *)

(** When every station is seen through, closing the body is the last thing
    the command does. *)
Lemma body_closed_on_return :
  last (effects (getAqi (Sample.world O) Sample.lahore start)) EUiInit
  = EBodyClose O
  /\ result (getAqi (Sample.world O) Sample.lahore start) = Val tt.
Proof. vm_compute. split; reflexivity. Qed.

(** C10 (evaluation of the code where it departs from the claim): the close
    of the body is deferred, and the fatal exits do not run deferred calls.
    When the body is not JSON the run ends after the log line of the decode
    error, and when the envelope has no station it ends after "no stations
    found"; in neither run is the body closed. *)
Theorem body_not_closed_on_fatal_exit :
  getAqi (Sample.world 2%nat) Sample.lahore start
  = mkRun (Stop (Exit 1))
          [EHttpDo (requestFor "http://localhost:3000/api?city=Lahore");
           EReadAll 2%nat;
           ELog "unable to unmarshell the response : invalid character 'o' in literal null (expecting 'u')"]
          start
  /\ ~ In (EBodyClose 2%nat)
          (effects (getAqi (Sample.world 2%nat) Sample.lahore start))
  /\ ~ In (EBodyClose 1%nat)
          (effects (getAqi (Sample.world 1%nat) Sample.lahore start)).
Proof.
  split; [reflexivity|].
  split; vm_compute; intros [H|[H|[H|[]]]]; discriminate.
Qed.

(** ** The stations, one after the other *)

(** C8: the stations of a decoded, non-empty list are handled in the order
    of the response.  For the stations that are seen through, the run is
    the sequence of their segments: the JSON line of the reduced summary,
    then the view of that station from [ui.Init] to [ui.Close], and only
    then the next station.  When all are seen through the run ends with the
    close of the body; when one is not (its view is never dismissed, or it
    fails), the run ends inside its segment and no later station is
    touched. *)
Theorem stations_reported_in_order (env : Env) (cmd : Flag.Command)
        (url : string) (res : Response) (resp : ApiResponse.t)
        (done rest : list Station.t) :
  urlOf cmd start = mkRun (Val url) [] start ->
  urlParseError env url = None ->
  fst (httpDo env (requestFor url)) = Some res ->
  jsonUnmarshal env (fst (ioReadAll env (Body res))) = inl resp ->
  ApiResponse.Stations resp <> [] ->
  ApiResponse.Stations resp = done ++ rest ->
  allViewed env 0 done ->
  let r := getAqi env cmd start in
  let sent := [EHttpDo (requestFor url); EReadAll (Body res)] in
  (rest = [] ->
   effects r = sent ++ segments env 0 done ++ closing env (Body res))
  /\ (forall s later,
         rest = s :: later -> ~ viewed env (length done) s ->
         result r <> Val tt
         /\ effects r
            = sent ++ segments env 0 done ++ brokenSegment env (length done) s).
Proof.
  intros Hurl Hparse Hdo Hjson Hsome Hsplit Hall. cbv zeta. split.
  - intros ->. rewrite app_nil_r in Hsplit.
    rewrite (getAqi_all_viewed env cmd url res resp Hurl Hparse Hdo Hjson Hsome)
      by (rewrite Hsplit; exact Hall).
    rewrite Hsplit. reflexivity.
  - intros s later -> Hnot.
    destruct (getAqi_broken env cmd url res resp done s later
                Hurl Hparse Hdo Hjson Hsplit Hall Hnot) as [Hres Heff].
    split; [|exact Heff].
    destruct Hres as [Hres | Hres]; rewrite Hres; discriminate.
Qed.

Lemma stations_reported_in_order_witness :
  effects (getAqi (Sample.world O) Sample.lahore start)
  = [ EHttpDo (requestFor "http://localhost:3000/api?city=Lahore");
      EReadAll O;
      ELog (lineOf (Sample.world O) Sample.gulberg);
      EUiInit;
      EUiRender (viewOf (Sample.world O) 250%float Sample.gulberg);
      EUiPoll Sample.resize; EUiPoll Sample.keyX; EUiPoll Sample.q;
      EUiClose;
      ELog (lineOf (Sample.world O) Sample.clifton);
      EUiInit;
      EUiRender (viewOf (Sample.world O) 145%float Sample.clifton);
      EUiPoll Sample.keyX; EUiPoll Sample.ctrlC;
      EUiClose;
      EBodyClose O ].
Proof.
  assert (Hsome : ApiResponse.Stations
                    (ApiResponse.mk "ok" [Sample.gulberg; Sample.clifton])
                  <> []) by (simpl; discriminate).
  assert (Hall : allViewed (Sample.world O) 0
                   [Sample.gulberg; Sample.clifton])
    by (repeat split; try reflexivity; eexists; reflexivity).
  exact (proj1 (stations_reported_in_order
                  (Sample.world O) Sample.lahore
                  "http://localhost:3000/api?city=Lahore" (mkResponse O)
                  (ApiResponse.mk "ok" [Sample.gulberg; Sample.clifton])
                  [Sample.gulberg; Sample.clifton] []
                  eq_refl eq_refl eq_refl eq_refl Hsome eq_refl Hall) eq_refl).
Defined.

(** When the first view is never dismissed, the second station is not even
    logged, and the body stays open. *)
Lemma undismissed_view_blocks :
  getAqi Sample.worldNoQuit Sample.lahore start
  = mkRun (Stop Blocked)
          [ EHttpDo (requestFor "http://localhost:3000/api?city=Lahore");
            EReadAll O;
            ELog (lineOf Sample.worldNoQuit Sample.gulberg);
            EUiInit;
            EUiRender (viewOf Sample.worldNoQuit 250%float Sample.gulberg);
            EUiPoll Sample.resize; EUiPoll Sample.keyX ]
          (mkUi (Some (viewOf Sample.worldNoQuit 250%float Sample.gulberg)) 0).
Proof. vm_compute. reflexivity. Qed.


(** * Further properties of the command *)

(** ** The query builder on every input (lines 89-98) *)

(** The three tests of the if-chain, as conditions on the flags. *)
Definition cityOnly (cmd : Flag.Command) : Prop :=
  Flag.city cmd <> "" /\ Flag.postal cmd = "" /\ Flag.country cmd = ""
  /\ Flag.latitude cmd = "" /\ Flag.longitude cmd = "".

Definition postalAndCountry (cmd : Flag.Command) : Prop :=
  Flag.postal cmd <> "" /\ Flag.country cmd <> ""
  /\ Flag.latitude cmd = "" /\ Flag.longitude cmd = "".

Definition bothCoordinates (cmd : Flag.Command) : Prop :=
  Flag.latitude cmd <> "" /\ Flag.longitude cmd <> "".

Definition accepted (cmd : Flag.Command) : Prop :=
  cityOnly cmd \/ postalAndCountry cmd \/ bothCoordinates cmd.

Lemma urlOf_cases (cmd : Flag.Command) (u : Ui) :
  (accepted cmd /\
   exists q, urlOf cmd u = mkRun (Val (baseUrl +:+ q)) [] u)
  \/ (~ accepted cmd /\
      urlOf cmd u = mkRun (Stop (Exit 1)) [ELog usageMessage] u).
Proof.
  unfold urlOf, accepted, cityOnly, postalAndCountry, bothCoordinates.
  destruct cmd as [c p o l g]. cbn [Flag.city Flag.postal Flag.country
                                     Flag.latitude Flag.longitude].
  destruct (buildUrl_cases c p o l g u)
    as [H | [H | [H | H]]]; decompose [and] H; clear H.
  - left. split; [left; auto|]. eexists. eassumption.
  - left. split; [right; left; auto|]. eexists. eassumption.
  - left. split; [right; right; auto|]. eexists. eassumption.
  - right. split; [|assumption].
    intros [Hc | [Hp | Hl]]; tauto.
Qed.

(** X1: the query builder ends in the usage error exactly when none of its
    three tests holds, and returns a URL, logging nothing, exactly when one
    does; there is no third outcome. *)
Theorem usage_error_iff (cmd : Flag.Command) (u : Ui) :
  (urlOf cmd u = mkRun (Stop (Exit 1)) [ELog usageMessage] u
   <-> ~ accepted cmd)
  /\ ((exists url, urlOf cmd u = mkRun (Val url) [] u) <-> accepted cmd).
Proof.
  destruct (urlOf_cases cmd u) as [[Hacc [q Hq]] | [Hnot Hfatal]].
  - split; split.
    + rewrite Hq. discriminate.
    + intros Hnot. contradiction.
    + intros _. exact Hacc.
    + intros _. eauto.
  - split; split.
    + intros _. exact Hnot.
    + intros _. exact Hfatal.
    + intros [url Hurl]. rewrite Hfatal in Hurl. discriminate.
    + intros Hacc. contradiction.
Qed.

(** X2: when none of the three tests holds, the usage message is all the
    command does: no request is sent, the terminal is not touched, and the
    process exits with status 1, whatever the outside world. *)
Theorem usage_error_sends_nothing (env : Env) (cmd : Flag.Command) (u : Ui) :
  ~ accepted cmd ->
  getAqi env cmd u = mkRun (Stop (Exit 1)) [ELog usageMessage] u.
Proof.
  intros Hnot. apply getAqi_usage_error.
  destruct (urlOf_cases cmd u) as [[Hacc _] | [_ Hfatal]];
    [contradiction | exact Hfatal].
Qed.

Lemma usage_error_sends_nothing_witness :
  getAqi (Sample.world O) (Flag.mk "" "" "PK" "" "") start
  = mkRun (Stop (Exit 1)) [ELog usageMessage] start.
Proof.
  apply (usage_error_sends_nothing (Sample.world O)
           (Flag.mk "" "" "PK" "" "") start).
  unfold accepted, cityOnly, postalAndCountry, bothCoordinates. simpl.
  intros [H | [H | H]]; destruct H as [H _]; apply H; reflexivity.
Defined.

(** X3: when latitude and longitude are both given, the URL is the one of
    the coordinates, whatever the city, postal and country flags are. *)
Theorem coordinates_take_precedence (c p o l g : string) (u : Ui) :
  l <> "" -> g <> "" ->
  urlOf (Flag.mk c p o l g) u
  = mkRun (Val (baseUrl +:+ "lat=" +:+ l +:+ "&lng=" +:+ g)) [] u.
Proof.
  intros Hl Hg. unfold urlOf. cbn [Flag.city Flag.postal Flag.country
                                    Flag.latitude Flag.longitude].
  destruct (buildUrl_cases c p o l g u)
    as [H | [H | [H | H]]]; decompose [and] H; clear H;
    try contradiction; try assumption.
  exfalso. auto.
Qed.

Lemma coordinates_take_precedence_witness :
  urlOf (Flag.mk "Lahore" "54000" "" "31.5" "74.3") start
  = mkRun (Val "http://localhost:3000/api?lat=31.5&lng=74.3") [] start.
Proof.
  apply (coordinates_take_precedence "Lahore" "54000" "" "31.5" "74.3" start);
    simpl; discriminate.
Defined.

(** X4: when postal code and country are given and no coordinate is, the
    URL is the one of postal code and country, whatever the city flag is. *)
Theorem postal_country_ignore_city (c p o : string) (u : Ui) :
  p <> "" -> o <> "" ->
  urlOf (Flag.mk c p o "" "") u
  = mkRun (Val (baseUrl +:+ "postal=" +:+ p +:+ "&country=" +:+ o)) [] u.
Proof.
  intros Hp Ho. unfold urlOf. cbn [Flag.city Flag.postal Flag.country
                                    Flag.latitude Flag.longitude].
  destruct (buildUrl_cases c p o "" "" u)
    as [H | [H | [H | H]]]; decompose [and] H; clear H;
    try assumption; exfalso; try congruence; auto.
Qed.

Lemma postal_country_ignore_city_witness :
  urlOf (Flag.mk "Lahore" "54000" "PK" "" "") start
  = mkRun (Val "http://localhost:3000/api?postal=54000&country=PK") [] start.
Proof.
  apply (postal_country_ignore_city "Lahore" "54000" "PK" start);
    simpl; discriminate.
Defined.

(** X5: one coordinate without the other is never enough: with exactly one
    of latitude and longitude given, the command is a usage error whatever
    the other three flags are. *)
Theorem lone_coordinate_is_rejected (c p o l g : string) (u : Ui) :
  (l = "" /\ g <> "") \/ (l <> "" /\ g = "") ->
  urlOf (Flag.mk c p o l g) u
  = mkRun (Stop (Exit 1)) [ELog usageMessage] u.
Proof.
  intros Hone. unfold urlOf. cbn [Flag.city Flag.postal Flag.country
                                   Flag.latitude Flag.longitude].
  destruct (buildUrl_cases c p o l g u)
    as [H | [H | [H | H]]]; decompose [and] H; clear H;
    try assumption; exfalso; destruct Hone as [[Ha Hb] | [Ha Hb]];
    congruence.
Qed.

Lemma lone_coordinate_is_rejected_witness :
  urlOf (Flag.mk "Lahore" "54000" "PK" "31.5" "") start
  = mkRun (Stop (Exit 1)) [ELog usageMessage] start.
Proof.
  apply (lone_coordinate_is_rejected "Lahore" "54000" "PK" "31.5" "" start).
  right. split; [discriminate | reflexivity].
Defined.

(** ** The shape of every run of [getAqi] (lines 77-144) *)

(** The requests sent, the bodies read and the bodies closed in a run. *)
Fixpoint requests (es : list Effect) : list Request :=
  match es with
  | [] => []
  | EHttpDo req :: rest => req :: requests rest
  | _ :: rest => requests rest
  end.

Fixpoint reads (es : list Effect) : list ReadCloser :=
  match es with
  | [] => []
  | EReadAll b :: rest => b :: reads rest
  | _ :: rest => reads rest
  end.

Fixpoint closes (es : list Effect) : list ReadCloser :=
  match es with
  | [] => []
  | EBodyClose b :: rest => b :: closes rest
  | _ :: rest => closes rest
  end.

(** The effects of the loop over the stations: log lines and terminal
    calls. *)
Definition uiOrLog (e : Effect) : bool :=
  match e with
  | ELog _ | EUiInit | EUiRender _ | EUiPoll _ | EUiClose => true
  | EHttpDo _ | EReadAll _ | EBodyClose _ => false
  end.

Definition localEffect (e : Effect) : Prop := uiOrLog e = true.

Lemma requests_app (es es' : list Effect) :
  requests (es ++ es') = requests es ++ requests es'.
Proof.
  induction es as [|e es IH]; [reflexivity|].
  destruct e; cbn; rewrite IH; reflexivity.
Qed.

Lemma reads_app (es es' : list Effect) :
  reads (es ++ es') = reads es ++ reads es'.
Proof.
  induction es as [|e es IH]; [reflexivity|].
  destruct e; cbn; rewrite IH; reflexivity.
Qed.

Lemma closes_app (es es' : list Effect) :
  closes (es ++ es') = closes es ++ closes es'.
Proof.
  induction es as [|e es IH]; [reflexivity|].
  destruct e; cbn; rewrite IH; reflexivity.
Qed.

Lemma logged_app (es es' : list Effect) :
  logged (es ++ es') = logged es ++ logged es'.
Proof.
  induction es as [|e es IH]; [reflexivity|].
  destruct e; cbn; rewrite IH; reflexivity.
Qed.

Lemma local_no_io (es : list Effect) :
  Forall localEffect es ->
  requests es = [] /\ reads es = [] /\ closes es = [].
Proof.
  induction 1 as [|e es He _ [IH1 [IH2 IH3]]]; [repeat split|].
  destruct e; try discriminate He; cbn; auto.
Qed.

Lemma polls_local (evs : list UiEvent) : Forall localEffect (map EUiPoll evs).
Proof. induction evs; constructor; [reflexivity | assumption]. Qed.

Section Shape.

Variable env : Env.

(** The run of a station, whatever the state of the terminal: it returns,
    exits with status 1 or waits for ever, and only logs and draws. *)
Lemma reportStation_local (s : Station.t) (u : Ui) :
  Forall localEffect (effects (reportStation env s u))
  /\ (result (reportStation env s u) = Val tt
      \/ result (reportStation env s u) = Stop (Exit 1)
      \/ result (reportStation env s u) = Stop Blocked).
Proof.
  unfold reportStation. fold (summaryOf s).
  destruct (jsonMarshal env (summaryOf s)) as [json|err].
  - rewrite (bind_prepend _ _ u u tt [ELog json]) by reflexivity.
    cbn [Aqi.AQI summaryOf].
    destruct (uiInitError env (views u)) as [err|] eqn:Hinit.
    + rewrite (dataUi_init_failed env _ s u err Hinit). cbn.
      split; [repeat constructor | auto].
    + rewrite (dataUi_run env _ s u Hinit). cbv zeta.
      destruct (dismissed (uiEventQueue env (views u)));
        cbn [prepend result effects final app]; (split; [|auto]).
      * repeat (constructor; [reflexivity|]).
        apply Forall_app. split; [apply polls_local | repeat constructor].
      * repeat (constructor; [reflexivity|]). apply polls_local.
  - cbn. split; [repeat constructor | auto].
Qed.

Lemma forRange_local (l : list Station.t) (u : Ui) :
  Forall localEffect (effects (forRange l (reportStation env) u))
  /\ (result (forRange l (reportStation env) u) = Val tt
      \/ result (forRange l (reportStation env) u) = Stop (Exit 1)
      \/ result (forRange l (reportStation env) u) = Stop Blocked).
Proof.
  revert u. induction l as [|s l IH]; intros u.
  - cbn. split; [constructor | auto].
  - cbn [forRange]. unfold bind.
    destruct (reportStation_local s u) as [Hloc Hres].
    destruct Hres as [Hres | [Hres | Hres]]; rewrite Hres;
      cbn [result effects final]; [|split; auto..].
    destruct (IH (final (reportStation env s u))) as [Hloc' Hres'].
    split; [apply Forall_app; split; assumption | exact Hres'].
Qed.

Lemma closeBody_run (b : ReadCloser) (u : Ui) :
  closeBody env b u
  = mkRun (match bodyClose env b with
           | Some _ => Stop (Exit 1)
           | None => Val tt
           end) (closing env b) u.
Proof.
  unfold closeBody, closing, Body_Close, bind, emit, ret, logFatal, halt.
  cbn [result effects final app].
  destruct (bodyClose env b); reflexivity.
Qed.

(** Every run of the command has one of four shapes: the usage error; the
    error of [http.NewRequest]; the request and the panic; or the request,
    the read of the body, then log lines and terminal calls, and last, when
    the loop over the stations has returned, the close of the body. *)
Lemma getAqi_shape (cmd : Flag.Command) (u : Ui) :
  let r := getAqi env cmd u in
  r = mkRun (Stop (Exit 1)) [ELog usageMessage] u
  \/ (exists q err,
        urlParseError env (baseUrl +:+ q) = Some err
        /\ r = mkRun (Stop (Exit 1)) [ELog err] u)
  \/ (exists q,
        urlParseError env (baseUrl +:+ q) = None
        /\ fst (httpDo env (requestFor (baseUrl +:+ q))) = None
        /\ r = mkRun (Stop (Panic Go.nilDereference))
                     [EHttpDo (requestFor (baseUrl +:+ q))] u)
  \/ (exists q res mid tail,
        urlParseError env (baseUrl +:+ q) = None
        /\ fst (httpDo env (requestFor (baseUrl +:+ q))) = Some res
        /\ effects r
           = [EHttpDo (requestFor (baseUrl +:+ q)); EReadAll (Body res)]
             ++ mid ++ tail
        /\ Forall localEffect mid
        /\ ((tail = []
             /\ (result r = Stop (Exit 1) \/ result r = Stop Blocked))
            \/ (tail = closing env (Body res)
                /\ result r = match bodyClose env (Body res) with
                              | Some _ => Stop (Exit 1)
                              | None => Val tt
                              end))).
Proof.
  cbv zeta.
  destruct (urlOf_cases cmd u) as [[_ [q Hq]] | [_ Hfatal]];
    [|left; now apply getAqi_usage_error].
  right.
  destruct (urlParseError env (baseUrl +:+ q)) as [err|] eqn:Hparse.
  { left. exists q, err. split; [exact Hparse|].
    now apply (getAqi_request_error env cmd u (baseUrl +:+ q)). }
  right.
  destruct (fst (httpDo env (requestFor (baseUrl +:+ q)))) as [res|] eqn:Hdo.
  2:{ left. exists q. repeat split; try assumption.
      now apply getAqi_no_response. }
  right. exists q, res.
  rewrite (getAqi_response env cmd u (baseUrl +:+ q) res Hq Hparse Hdo).
  unfold defer. cbv beta.
  set (inner :=
         match jsonUnmarshal env (fst (ioReadAll env (Body res))) with
         | inl aqi =>
             match ApiResponse.Stations aqi with
             | [] => logFatal "no stations found" u
             | _ :: _ =>
                 forRange (ApiResponse.Stations aqi) (reportStation env) u
             end
         | inr err =>
             logFatal ("unable to unmarshell the response : " +:+ err) u
         end).
  assert (Hinner : Forall localEffect (effects inner)
                   /\ (result inner = Val tt \/ result inner = Stop (Exit 1)
                       \/ result inner = Stop Blocked)).
  { subst inner.
    destruct (jsonUnmarshal env (fst (ioReadAll env (Body res)))) as [aqi|err].
    - destruct (ApiResponse.Stations aqi) as [|s l] eqn:E.
      + cbn. split; [repeat constructor | auto].
      + apply forRange_local.
    - cbn. split; [repeat constructor | auto]. }
  destruct Hinner as [Hloc Hres]. clearbody inner.
  destruct inner as [ri ei fi]. cbn [result effects] in Hloc, Hres.
  exists ei. unfold prepend. cbn [result effects final].
  destruct Hres as [-> | [-> | ->]]; cbn [result effects final app].
  - exists (closing env (Body res)). rewrite closeBody_run.
    cbn [result effects final]. repeat split; try assumption.
    right. split; [reflexivity|].
    destruct (bodyClose env (Body res)); reflexivity.
  - exists []. rewrite app_nil_r. repeat split; try assumption.
    left. auto.
  - exists []. rewrite app_nil_r. repeat split; try assumption.
    left. auto.
Qed.

End Shape.

(** X6: a run sends at most one request, and sends it before anything
    else: there is no retry.  The request is a GET to the fixed base
    address with the one header Content-Type: application/json. *)
Theorem at_most_one_request (env : Env) (cmd : Flag.Command) (u : Ui) :
  let r := getAqi env cmd u in
  requests (effects r) = []
  \/ exists q tail,
       requests (effects r) = [requestFor (baseUrl +:+ q)]
       /\ effects r = EHttpDo (requestFor (baseUrl +:+ q)) :: tail.
Proof.
  cbv zeta.
  destruct (getAqi_shape env cmd u)
    as [H | [[q [err [_ H]]] | [[q [_ [_ H]]] | H]]].
  - left. rewrite H. reflexivity.
  - left. rewrite H. reflexivity.
  - right. exists q, []. rewrite H. split; reflexivity.
  - destruct H as [q [res [mid [tail [_ [_ [Heff [Hloc Htail]]]]]]]].
    right. exists q. eexists. rewrite Heff. split; [|reflexivity].
    cbn [app requests]. rewrite requests_app.
    destruct (local_no_io mid Hloc) as [-> _].
    destruct Htail as [[-> _] | [-> _]]; [reflexivity|].
    unfold closing. destruct (bodyClose env (Body res)); reflexivity.
Qed.

(** X7: a body that is closed is the body that was read, it is closed
    once, and the close is the end of the run: only the log line of a
    failed close can follow it. *)
Theorem body_closed_last (env : Env) (cmd : Flag.Command) (u : Ui)
        (b : ReadCloser) :
  In b (closes (effects (getAqi env cmd u))) ->
  closes (effects (getAqi env cmd u)) = [b]
  /\ reads (effects (getAqi env cmd u)) = [b]
  /\ exists es,
       effects (getAqi env cmd u) = es ++ closing env b /\ closes es = [].
Proof.
  destruct (getAqi_shape env cmd u)
    as [H | [[q [err [_ H]]] | [[q [_ [_ H]]] | H]]];
    try (rewrite H; cbn; intros []).
  destruct H as [q [res [mid [tail [_ [_ [Heff [Hloc Htail]]]]]]]].
  rewrite Heff. destruct (local_no_io mid Hloc) as [_ [Hr Hc]].
  cbn [app closes reads]. rewrite closes_app, reads_app, Hr, Hc.
  cbn [app].
  assert (Hclosing : closes (closing env (Body res)) = [Body res]
                     /\ reads (closing env (Body res)) = []).
  { unfold closing. destruct (bodyClose env (Body res)); split; reflexivity. }
  destruct Hclosing as [Hcc Hcr].
  destruct Htail as [[-> _] | [-> _]]; [intros []|].
  rewrite Hcc, Hcr. intros [<- | []].
  repeat split.
  exists ([EHttpDo (requestFor (baseUrl +:+ q)); EReadAll (Body res)] ++ mid).
  split.
  - rewrite <- app_assoc. reflexivity.
  - cbn [app closes]. exact Hc.
Qed.

Lemma body_closed_last_witness :
  closes (effects (getAqi (Sample.world O) Sample.lahore start)) = [O]
  /\ reads (effects (getAqi (Sample.world O) Sample.lahore start)) = [O].
Proof.
  assert (Hin : In O (closes (effects (getAqi (Sample.world O)
                                         Sample.lahore start))))
    by (vm_compute; left; reflexivity).
  pose proof (body_closed_last (Sample.world O) Sample.lahore start O Hin)
    as H.
  split; [exact (proj1 H) | exact (proj1 (proj2 H))].
Defined.

(** X9: a run that returns, so that the process ends with status 0, has
    sent its request, read the body, and closed that body without error as
    its last step; in between it has only logged and drawn. *)
Theorem normal_return_closes_body (env : Env) (cmd : Flag.Command) (u : Ui) :
  result (getAqi env cmd u) = Val tt ->
  exists q res mid,
    effects (getAqi env cmd u)
    = [EHttpDo (requestFor (baseUrl +:+ q)); EReadAll (Body res)]
      ++ mid ++ [EBodyClose (Body res)]
    /\ Forall localEffect mid
    /\ bodyClose env (Body res) = None.
Proof.
  destruct (getAqi_shape env cmd u)
    as [H | [[q [err [_ H]]] | [[q [_ [_ H]]] | H]]];
    try (rewrite H; cbn; discriminate).
  destruct H as [q [res [mid [tail [_ [_ [Heff [Hloc Htail]]]]]]]].
  intros Hval. exists q, res, mid. rewrite Heff.
  destruct Htail as [[_ [Hres | Hres]] | [-> Hres]];
    try (rewrite Hres in Hval; discriminate).
  rewrite Hres in Hval. unfold closing.
  destruct (bodyClose env (Body res)); [discriminate|].
  repeat split. exact Hloc.
Qed.

Lemma normal_return_closes_body_witness :
  exists q res mid,
    effects (getAqi (Sample.world O) Sample.lahore start)
    = [EHttpDo (requestFor (baseUrl +:+ q)); EReadAll (Body res)]
      ++ mid ++ [EBodyClose (Body res)]
    /\ Forall localEffect mid
    /\ bodyClose (Sample.world O) (Body res) = None.
Proof.
  apply (normal_return_closes_body (Sample.world O) Sample.lahore start).
  vm_compute. reflexivity.
Defined.

(** ** The errors that are dropped (lines 107 and 116) *)

(** Two worlds that are the same but for the errors [ioutil.ReadAll]
    reports: the bytes read are the same. *)
Definition sameButReadErrors (env env' : Env) : Prop :=
  urlParseError env = urlParseError env'
  /\ httpDo env = httpDo env'
  /\ (forall b, fst (ioReadAll env b) = fst (ioReadAll env' b))
  /\ bodyClose env = bodyClose env'
  /\ jsonUnmarshal env = jsonUnmarshal env'
  /\ jsonMarshal env = jsonMarshal env'
  /\ uiInitError env = uiInitError env'
  /\ uiEventQueue env = uiEventQueue env'
  /\ intOutOfRange env = intOutOfRange env'
  /\ themeGaugeBar env = themeGaugeBar env'.

(** Two worlds that are the same but for the errors [Do] reports: the
    responses, nil or not, are the same. *)
Definition sameButDoErrors (env env' : Env) : Prop :=
  urlParseError env = urlParseError env'
  /\ (forall req, fst (httpDo env req) = fst (httpDo env' req))
  /\ ioReadAll env = ioReadAll env'
  /\ bodyClose env = bodyClose env'
  /\ jsonUnmarshal env = jsonUnmarshal env'
  /\ jsonMarshal env = jsonMarshal env'
  /\ uiInitError env = uiInitError env'
  /\ uiEventQueue env = uiEventQueue env'
  /\ intOutOfRange env = intOutOfRange env'
  /\ themeGaugeBar env = themeGaugeBar env'.

(** X10: the error of reading the body never matters: two worlds that
    differ only in the error [ioutil.ReadAll] reports give the same run. *)
Theorem read_errors_never_matter (env env' : Env) (cmd : Flag.Command)
        (u : Ui) :
  sameButReadErrors env env' ->
  getAqi env cmd u = getAqi env' cmd u.
Proof.
  intros Hsame.
  destruct env as [parse do read close unm mar init evs oor bar].
  destruct env' as [parse' do' read' close' unm' mar' init' evs' oor' bar'].
  unfold sameButReadErrors in Hsame. cbn in Hsame.
  destruct Hsame as [<- [<- [Hread [<- [<- [<- [<- [<- [<- <-]]]]]]]]].
  set (env := mkEnv parse do read close unm mar init evs oor bar).
  set (env' := mkEnv parse do read' close unm mar init evs oor bar).
  destruct (urlOf_cases cmd u) as [[_ [q Hq]] | [_ Hfatal]].
  2:{ rewrite (getAqi_usage_error env cmd u Hfatal).
      rewrite (getAqi_usage_error env' cmd u Hfatal). reflexivity. }
  destruct (parse (baseUrl +:+ q)) as [err|] eqn:Hparse.
  { rewrite (getAqi_request_error env cmd u _ err Hq Hparse).
    rewrite (getAqi_request_error env' cmd u _ err Hq Hparse). reflexivity. }
  destruct (fst (do (requestFor (baseUrl +:+ q)))) as [res|] eqn:Hdo.
  2:{ rewrite (getAqi_no_response env cmd u _ Hq Hparse Hdo).
      rewrite (getAqi_no_response env' cmd u _ Hq Hparse Hdo). reflexivity. }
  rewrite (getAqi_response env cmd u _ res Hq Hparse Hdo).
  rewrite (getAqi_response env' cmd u _ res Hq Hparse Hdo).
  subst env env'. cbn [ioReadAll jsonUnmarshal].
  rewrite (Hread (Body res)). reflexivity.
Qed.

Lemma read_errors_never_matter_witness :
  getAqi (Sample.world O) Sample.lahore start
  = getAqi (Sample.worldReadError O) Sample.lahore start.
Proof.
  apply (read_errors_never_matter (Sample.world O) (Sample.worldReadError O)).
  unfold sameButReadErrors. simpl. repeat split; reflexivity.
Defined.

(** X11: the error of [Do] never matters: two worlds that differ only in
    the error [Do] reports give the same run; only the response, nil or
    not, is looked at. *)
Theorem do_errors_never_matter (env env' : Env) (cmd : Flag.Command)
        (u : Ui) :
  sameButDoErrors env env' ->
  getAqi env cmd u = getAqi env' cmd u.
Proof.
  intros Hsame.
  destruct env as [parse do read close unm mar init evs oor bar].
  destruct env' as [parse' do' read' close' unm' mar' init' evs' oor' bar'].
  unfold sameButDoErrors in Hsame. cbn in Hsame.
  destruct Hsame as [<- [Hdoes [<- [<- [<- [<- [<- [<- [<- <-]]]]]]]]].
  set (env := mkEnv parse do read close unm mar init evs oor bar).
  set (env' := mkEnv parse do' read close unm mar init evs oor bar).
  destruct (urlOf_cases cmd u) as [[_ [q Hq]] | [_ Hfatal]].
  2:{ rewrite (getAqi_usage_error env cmd u Hfatal).
      rewrite (getAqi_usage_error env' cmd u Hfatal). reflexivity. }
  destruct (parse (baseUrl +:+ q)) as [err|] eqn:Hparse.
  { rewrite (getAqi_request_error env cmd u _ err Hq Hparse).
    rewrite (getAqi_request_error env' cmd u _ err Hq Hparse). reflexivity. }
  pose proof (Hdoes (requestFor (baseUrl +:+ q))) as Hsame.
  destruct (fst (do (requestFor (baseUrl +:+ q)))) as [res|] eqn:Hdo.
  2:{ rewrite (getAqi_no_response env cmd u _ Hq Hparse Hdo).
      rewrite (getAqi_no_response env' cmd u _ Hq Hparse (eq_sym Hsame)).
      reflexivity. }
  rewrite (getAqi_response env cmd u _ res Hq Hparse Hdo).
  rewrite (getAqi_response env' cmd u _ res Hq Hparse (eq_sym Hsame)).
  reflexivity.
Qed.

(** The world of [Sample.world], with a response and an error from [Do]
    at once, as after a refused redirect. *)
Definition worldDoError : Env :=
  mkEnv (fun _ => None)
        (fun _ => (Some (mkResponse O), Some "stopped after 10 redirects"))
        (fun b => (Sample.content b, None))
        (fun _ => None)
        Sample.unmarshal Sample.marshal
        (fun _ => None)
        Sample.events
        (fun _ => Go.minInt)
        ColorWhite.

Lemma do_errors_never_matter_witness :
  getAqi (Sample.world O) Sample.lahore start
  = getAqi worldDoError Sample.lahore start.
Proof.
  apply (do_errors_never_matter (Sample.world O) worldDoError).
  unfold sameButDoErrors. simpl. repeat split; reflexivity.
Defined.

(** ** Worlds in which something fails *)

Module Faulty.

(** URLs with a control character do not parse. *)
Definition isControl (c : ascii) : bool :=
  (nat_of_ascii c <? 32)%nat || (nat_of_ascii c =? 127)%nat.

Fixpoint hasControl (s : string) : bool :=
  match s with
  | EmptyString => false
  | String c rest => isControl c || hasControl rest
  end.

Definition parseError (url : string) : option Go.error :=
  if hasControl url then Some "net/url: invalid control character in URL"
  else None.

(** A city name with a line feed in it. *)
Definition brokenCity : Flag.Command :=
  Flag.mk ("Lahore" +:+ String (ascii_of_nat 10) "") "" "" "" "".

Definition worldStrict : Env :=
  mkEnv parseError
        (fun _ => (Some (mkResponse O), None))
        (fun b => (Sample.content b, None))
        (fun _ => None)
        Sample.unmarshal Sample.marshal
        (fun _ => None)
        Sample.events
        (fun _ => Go.minInt)
        ColorWhite.

(** Closing the body fails. *)
Definition worldCloseError : Env :=
  mkEnv (fun _ => None)
        (fun _ => (Some (mkResponse O), None))
        (fun b => (Sample.content b, None))
        (fun _ => Some "close tcp 127.0.0.1:3000: use of closed network connection")
        Sample.unmarshal Sample.marshal
        (fun _ => None)
        Sample.events
        (fun _ => Go.minInt)
        ColorWhite.

(** The terminal opens for the first view and not for the second. *)
Definition worldSecondInitFails : Env :=
  mkEnv (fun _ => None)
        (fun _ => (Some (mkResponse O), None))
        (fun b => (Sample.content b, None))
        (fun _ => None)
        Sample.unmarshal Sample.marshal
        (fun n => match n with
                  | O => None
                  | S _ => Some "open /dev/tty: no such device or address"
                  end)
        Sample.events
        (fun _ => Go.minInt)
        ColorWhite.

End Faulty.

(** ** Fatal errors *)

(** X12: when [http.NewRequest] refuses the URL, its error is the one line
    logged and the process exits with status 1: no request is sent and the
    terminal is not touched. *)
Theorem request_error_is_fatal (env : Env) (cmd : Flag.Command) (u : Ui)
        (url : string) (err : Go.error) :
  urlOf cmd u = mkRun (Val url) [] u ->
  urlParseError env url = Some err ->
  getAqi env cmd u = mkRun (Stop (Exit 1)) [ELog err] u
  /\ requests (effects (getAqi env cmd u)) = [].
Proof.
  intros Hurl Hparse.
  rewrite (getAqi_request_error env cmd u url err Hurl Hparse).
  split; reflexivity.
Qed.

Lemma request_error_is_fatal_witness :
  getAqi Faulty.worldStrict Faulty.brokenCity start
  = mkRun (Stop (Exit 1))
          [ELog "net/url: invalid control character in URL"] start.
Proof.
  refine (proj1 (request_error_is_fatal
                   Faulty.worldStrict Faulty.brokenCity start
                   (baseUrl +:+ "city=" +:+ Flag.city Faulty.brokenCity)
                   "net/url: invalid control character in URL" _ _));
    reflexivity.
Defined.

(** X13: when the body does not decode, the run is the request, the read
    and the log line of the decode error, and the process exits with status
    1: the terminal is not touched and the body is not closed. *)
Theorem decode_error_is_fatal (env : Env) (cmd : Flag.Command) (u : Ui)
        (url : string) (res : Response) (err : Go.error) :
  urlOf cmd u = mkRun (Val url) [] u ->
  urlParseError env url = None ->
  fst (httpDo env (requestFor url)) = Some res ->
  jsonUnmarshal env (fst (ioReadAll env (Body res))) = inr err ->
  getAqi env cmd u
  = mkRun (Stop (Exit 1))
          [EHttpDo (requestFor url); EReadAll (Body res);
           ELog ("unable to unmarshell the response : " +:+ err)] u
  /\ closes (effects (getAqi env cmd u)) = [].
Proof.
  intros Hurl Hparse Hdo Hjson.
  rewrite (getAqi_decode_error env cmd u url res err Hurl Hparse Hdo Hjson).
  split; reflexivity.
Qed.

Lemma decode_error_is_fatal_witness :
  closes (effects (getAqi (Sample.world 2%nat) Sample.lahore start)) = [].
Proof.
  refine (proj2 (decode_error_is_fatal
                   (Sample.world 2%nat) Sample.lahore start
                   "http://localhost:3000/api?city=Lahore"
                   (mkResponse 2%nat)
                   "invalid character 'o' in literal null (expecting 'u')"
                   _ _ _ _)); reflexivity.
Defined.

(** X14: when every station is seen through and closing the body fails,
    the failure is logged after the last view and the process exits with
    status 1 instead of 0. *)
Theorem close_error_is_fatal (env : Env) (cmd : Flag.Command) (url : string)
        (res : Response) (resp : ApiResponse.t) (err : Go.error) :
  urlOf cmd start = mkRun (Val url) [] start ->
  urlParseError env url = None ->
  fst (httpDo env (requestFor url)) = Some res ->
  jsonUnmarshal env (fst (ioReadAll env (Body res))) = inl resp ->
  ApiResponse.Stations resp <> [] ->
  allViewed env 0 (ApiResponse.Stations resp) ->
  bodyClose env (Body res) = Some err ->
  result (getAqi env cmd start) = Stop (Exit 1)
  /\ effects (getAqi env cmd start)
     = [EHttpDo (requestFor url); EReadAll (Body res)]
       ++ segments env 0 (ApiResponse.Stations resp)
       ++ [EBodyClose (Body res); ELog ("error occured: " +:+ err)].
Proof.
  intros Hurl Hparse Hdo Hjson Hsome Hall Hclose.
  rewrite (getAqi_all_viewed env cmd url res resp
             Hurl Hparse Hdo Hjson Hsome Hall).
  unfold closing. rewrite Hclose. split; reflexivity.
Qed.

Lemma close_error_is_fatal_witness :
  result (getAqi Faulty.worldCloseError Sample.lahore start) = Stop (Exit 1)
  /\ logged (effects (getAqi Faulty.worldCloseError Sample.lahore start))
     = [ lineOf Faulty.worldCloseError Sample.gulberg;
         lineOf Faulty.worldCloseError Sample.clifton;
         "error occured: close tcp 127.0.0.1:3000: use of closed network connection" ].
Proof.
  assert (Hsome : ApiResponse.Stations
                    (ApiResponse.mk "ok" [Sample.gulberg; Sample.clifton])
                  <> []) by (simpl; discriminate).
  assert (Hall : allViewed Faulty.worldCloseError 0
                   [Sample.gulberg; Sample.clifton])
    by (repeat split; try reflexivity; eexists; reflexivity).
  pose proof (close_error_is_fatal
                Faulty.worldCloseError Sample.lahore
                "http://localhost:3000/api?city=Lahore" (mkResponse O)
                (ApiResponse.mk "ok" [Sample.gulberg; Sample.clifton])
                "close tcp 127.0.0.1:3000: use of closed network connection"
                eq_refl eq_refl eq_refl eq_refl Hsome Hall eq_refl) as H.
  split; [exact (proj1 H)|].
  rewrite (proj2 H). reflexivity.
Defined.

Lemma logged_polls (evs : list UiEvent) : logged (map EUiPoll evs) = [].
Proof. induction evs; [reflexivity | assumption]. Qed.

Lemma logged_segments (env : Env) (l : list Station.t) (i : nat) :
  logged (segments env i l) = map (lineOf env) l.
Proof.
  revert i. induction l as [|s l IH]; intros i; [reflexivity|].
  cbn [segments map]. rewrite logged_app, IH. unfold segment.
  cbn [app logged]. rewrite logged_app, logged_polls. reflexivity.
Qed.

(** X15: when every station is seen through and the body closes, the lines
    logged are exactly the JSON lines of the summaries, one per station in
    the order of the response, and the number of views opened and closed is
    the number of stations. *)
Theorem one_summary_line_per_station (env : Env) (cmd : Flag.Command)
        (url : string) (res : Response) (resp : ApiResponse.t) :
  urlOf cmd start = mkRun (Val url) [] start ->
  urlParseError env url = None ->
  fst (httpDo env (requestFor url)) = Some res ->
  jsonUnmarshal env (fst (ioReadAll env (Body res))) = inl resp ->
  ApiResponse.Stations resp <> [] ->
  allViewed env 0 (ApiResponse.Stations resp) ->
  bodyClose env (Body res) = None ->
  let r := getAqi env cmd start in
  result r = Val tt
  /\ logged (effects r) = map (lineOf env) (ApiResponse.Stations resp)
  /\ views (final r) = length (ApiResponse.Stations resp)
  /\ screen (final r) = None.
Proof.
  intros Hurl Hparse Hdo Hjson Hsome Hall Hclose. cbv zeta.
  rewrite (getAqi_all_viewed env cmd url res resp
             Hurl Hparse Hdo Hjson Hsome Hall).
  unfold closing. rewrite Hclose. cbn [result effects final views screen].
  repeat split.
  cbn [app logged]. rewrite logged_app, logged_segments. cbn.
  apply app_nil_r.
Qed.

Lemma one_summary_line_per_station_witness :
  logged (effects (getAqi (Sample.world O) Sample.lahore start))
  = [ lineOf (Sample.world O) Sample.gulberg;
      lineOf (Sample.world O) Sample.clifton ]
  /\ views (final (getAqi (Sample.world O) Sample.lahore start)) = 2%nat.
Proof.
  assert (Hsome : ApiResponse.Stations
                    (ApiResponse.mk "ok" [Sample.gulberg; Sample.clifton])
                  <> []) by (simpl; discriminate).
  assert (Hall : allViewed (Sample.world O) 0
                   [Sample.gulberg; Sample.clifton])
    by (repeat split; try reflexivity; eexists; reflexivity).
  pose proof (one_summary_line_per_station
                (Sample.world O) Sample.lahore
                "http://localhost:3000/api?city=Lahore" (mkResponse O)
                (ApiResponse.mk "ok" [Sample.gulberg; Sample.clifton])
                eq_refl eq_refl eq_refl eq_refl Hsome Hall eq_refl) as H.
  split; [exact (proj1 (proj2 H)) | exact (proj1 (proj2 (proj2 H)))].
Defined.

(** ** A station that fails *)

(** When the stations before [s] are seen through and the run of [s] exits
    or waits for ever, the whole run ends there. *)
Lemma getAqi_stops_at (env : Env) (cmd : Flag.Command) (url : string)
      (res : Response) (resp : ApiResponse.t) (done : list Station.t)
      (s : Station.t) (later : list Station.t) (h : Halt)
      (es : list Effect) (u' : Ui) :
  urlOf cmd start = mkRun (Val url) [] start ->
  urlParseError env url = None ->
  fst (httpDo env (requestFor url)) = Some res ->
  jsonUnmarshal env (fst (ioReadAll env (Body res))) = inl resp ->
  ApiResponse.Stations resp = done ++ s :: later ->
  allViewed env 0 done ->
  reportStation env s (mkUi None (length done)) = mkRun (Stop h) es u' ->
  h = Exit 1 \/ h = Blocked ->
  getAqi env cmd start
  = mkRun (Stop h)
          ([EHttpDo (requestFor url); EReadAll (Body res)]
           ++ segments env 0 done ++ es) u'.
Proof.
  intros Hurl Hparse Hdo Hjson Hsplit Hall Hs Hh.
  rewrite (getAqi_response env cmd start url res Hurl Hparse Hdo).
  unfold defer. rewrite Hjson.
  destruct (ApiResponse.Stations resp) as [|s0 l0] eqn:E;
    [destruct done; discriminate|].
  rewrite Hsplit. unfold start.
  rewrite (forRange_viewed env done (s :: later) 0 Hall).
  cbn [forRange Nat.add]. unfold bind. rewrite Hs.
  cbn [prepend result effects final].
  destruct Hh as [-> | ->]; reflexivity.
Qed.

(** X16: when the terminal does not initialise for a station, the stations
    before it have been shown, the summary line of this one is already
    logged, the failure is logged and the process exits with status 1:
    nothing is rendered for it, no later station is touched and the body is
    not closed. *)
Theorem terminal_init_error_is_fatal (env : Env) (cmd : Flag.Command)
        (url : string) (res : Response) (resp : ApiResponse.t)
        (done : list Station.t) (s : Station.t) (later : list Station.t)
        (json : string) (err : Go.error) :
  urlOf cmd start = mkRun (Val url) [] start ->
  urlParseError env url = None ->
  fst (httpDo env (requestFor url)) = Some res ->
  jsonUnmarshal env (fst (ioReadAll env (Body res))) = inl resp ->
  ApiResponse.Stations resp = done ++ s :: later ->
  allViewed env 0 done ->
  jsonMarshal env (summaryOf s) = inl json ->
  uiInitError env (length done) = Some err ->
  getAqi env cmd start
  = mkRun (Stop (Exit 1))
          ([EHttpDo (requestFor url); EReadAll (Body res)]
           ++ segments env 0 done
           ++ [ELog json; EUiInit;
               ELog ("failed to initialize termui: " +:+ err)])
          (mkUi None (length done)).
Proof.
  intros Hurl Hparse Hdo Hjson Hsplit Hall Hm Hinit.
  apply (getAqi_stops_at env cmd url res resp done s later);
    try assumption; [|now left].
  unfold reportStation. fold (summaryOf s). rewrite Hm.
  rewrite (bind_prepend _ _ _ _ tt [ELog json]) by reflexivity.
  rewrite (dataUi_init_failed env _ s (mkUi None (length done)) err Hinit).
  reflexivity.
Qed.

Lemma terminal_init_error_is_fatal_witness :
  getAqi Faulty.worldSecondInitFails Sample.lahore start
  = mkRun (Stop (Exit 1))
          ([EHttpDo (requestFor "http://localhost:3000/api?city=Lahore");
            EReadAll O]
           ++ segments Faulty.worldSecondInitFails 0 [Sample.gulberg]
           ++ [ELog (lineOf Faulty.worldSecondInitFails Sample.clifton);
               EUiInit;
               ELog "failed to initialize termui: open /dev/tty: no such device or address"])
          (mkUi None 1).
Proof.
  assert (Hall : allViewed Faulty.worldSecondInitFails 0 [Sample.gulberg])
    by (repeat split; try reflexivity; eexists; reflexivity).
  exact (terminal_init_error_is_fatal
           Faulty.worldSecondInitFails Sample.lahore
           "http://localhost:3000/api?city=Lahore" (mkResponse O)
           (ApiResponse.mk "ok" [Sample.gulberg; Sample.clifton])
           [Sample.gulberg] Sample.clifton []
           (lineOf Faulty.worldSecondInitFails Sample.clifton)
           "open /dev/tty: no such device or address"
           eq_refl eq_refl eq_refl eq_refl eq_refl Hall eq_refl eq_refl).
Defined.

(** The world of [Sample.world], except that the summary of Karachi does
    not encode. *)
Definition worldMarshalFails : Env :=
  mkEnv (fun _ => None)
        (fun _ => (Some (mkResponse O), None))
        (fun b => (Sample.content b, None))
        (fun _ => None)
        Sample.unmarshal
        (fun a => if String.eqb (Aqi.City a) "Karachi"
                  then inr "json: unsupported value: NaN"
                  else Sample.marshal a)
        (fun _ => None)
        Sample.events
        (fun _ => Go.minInt)
        ColorWhite.

(** X17: when the summary of a station does not encode, the failure is
    logged and the process exits with status 1 before any terminal call for
    that station: the stations before it have been shown, no later station
    is touched and the body is not closed. *)
Theorem marshal_error_is_fatal (env : Env) (cmd : Flag.Command)
        (url : string) (res : Response) (resp : ApiResponse.t)
        (done : list Station.t) (s : Station.t) (later : list Station.t)
        (err : Go.error) :
  urlOf cmd start = mkRun (Val url) [] start ->
  urlParseError env url = None ->
  fst (httpDo env (requestFor url)) = Some res ->
  jsonUnmarshal env (fst (ioReadAll env (Body res))) = inl resp ->
  ApiResponse.Stations resp = done ++ s :: later ->
  allViewed env 0 done ->
  jsonMarshal env (summaryOf s) = inr err ->
  getAqi env cmd start
  = mkRun (Stop (Exit 1))
          ([EHttpDo (requestFor url); EReadAll (Body res)]
           ++ segments env 0 done
           ++ [ELog ("unable to marshall the response : " +:+ err)])
          (mkUi None (length done)).
Proof.
  intros Hurl Hparse Hdo Hjson Hsplit Hall Hm.
  apply (getAqi_stops_at env cmd url res resp done s later);
    try assumption; [|now left].
  unfold reportStation. fold (summaryOf s). rewrite Hm. reflexivity.
Qed.

Lemma marshal_error_is_fatal_witness :
  getAqi worldMarshalFails Sample.lahore start
  = mkRun (Stop (Exit 1))
          ([EHttpDo (requestFor "http://localhost:3000/api?city=Lahore");
            EReadAll O]
           ++ segments worldMarshalFails 0 [Sample.gulberg]
           ++ [ELog "unable to marshall the response : json: unsupported value: NaN"])
          (mkUi None 1).
Proof.
  assert (Hall : allViewed worldMarshalFails 0 [Sample.gulberg])
    by (repeat split; try reflexivity; eexists; reflexivity).
  exact (marshal_error_is_fatal
           worldMarshalFails Sample.lahore
           "http://localhost:3000/api?city=Lahore" (mkResponse O)
           (ApiResponse.mk "ok" [Sample.gulberg; Sample.clifton])
           [Sample.gulberg] Sample.clifton []
           "json: unsupported value: NaN"
           eq_refl eq_refl eq_refl eq_refl eq_refl Hall eq_refl).
Defined.

(** ** The view of one station (lines 146-207) *)

(** The views rendered in a run. *)
Fixpoint renders (es : list Effect) : list (list Drawable) :=
  match es with
  | [] => []
  | EUiRender ws :: rest => ws :: renders rest
  | _ :: rest => renders rest
  end.

Lemma renders_polls (evs : list UiEvent) : renders (map EUiPoll evs) = [].
Proof. induction evs; [reflexivity | assumption]. Qed.

Lemma renders_app (es es' : list Effect) :
  renders (es ++ es') = renders es ++ renders es'.
Proof.
  induction es as [|e es IH]; [reflexivity|].
  destruct e; cbn; rewrite IH; reflexivity.
Qed.

Lemma no_close_in_polls (evs : list UiEvent) : ~ In EUiClose (map EUiPoll evs).
Proof.
  intros Hin. apply in_map_iff in Hin. destruct Hin as [x [Hx _]].
  discriminate.
Qed.

(** X18: the terminal is closed exactly when the view function returns.
    When it returns, [ui.Close] is its last call, the terminal is no longer
    initialised and one more view is counted; when it does not return
    (fatal initialisation, or no quit event), [ui.Close] is never called. *)
Theorem view_closes_terminal_on_return (env : Env) (aqi : float)
        (station : Station.t) (u : Ui) :
  let r := dataUi env aqi station u in
  (In EUiClose (effects r) <-> result r = Val tt)
  /\ (result r = Val tt ->
      last (effects r) EUiInit = EUiClose
      /\ screen (final r) = None
      /\ views (final r) = S (views u))
  /\ (result r <> Val tt -> views (final r) = views u).
Proof.
  cbv zeta. destruct (uiInitError env (views u)) as [err|] eqn:Hinit.
  - rewrite (dataUi_init_failed env aqi station u err Hinit).
    cbn [result effects final]. repeat split; try discriminate.
    intros [H | [H | []]]; discriminate.
  - rewrite (dataUi_run env aqi station u Hinit). cbv zeta.
    destruct (dismissed (uiEventQueue env (views u)));
      cbn [result effects final views screen].
    + repeat split; try congruence.
      * intros _. apply in_or_app. right. apply in_or_app. right.
        now left.
      * rewrite app_assoc. apply last_last.
    + repeat split; try discriminate.
      intros Hin. exfalso. cbn [app] in Hin.
      destruct Hin as [H | [H | H]]; try discriminate.
      now apply no_close_in_polls in H.
Qed.

Lemma view_closes_terminal_on_return_witness :
  last (effects (dataUi (Sample.world O) 250%float Sample.gulberg start))
       EUiInit = EUiClose
  /\ screen (final (dataUi (Sample.world O) 250%float Sample.gulberg start))
     = None
  /\ views (final (dataUi (Sample.world O) 250%float Sample.gulberg start))
     = 1%nat.
Proof.
  apply (proj1 (proj2 (view_closes_terminal_on_return
                         (Sample.world O) 250%float Sample.gulberg start))).
  reflexivity.
Defined.

(** X19: a view is rendered once, right after the terminal initialises,
    and never again: no event leads to a second render.  When the terminal
    does not initialise, nothing is rendered. *)
Theorem view_is_rendered_once (env : Env) (aqi : float) (station : Station.t)
        (u : Ui) :
  renders (effects (dataUi env aqi station u))
  = match uiInitError env (views u) with
    | Some _ => []
    | None => [viewOf env aqi station]
    end.
Proof.
  destruct (uiInitError env (views u)) as [err|] eqn:Hinit.
  - rewrite (dataUi_init_failed env aqi station u err Hinit). reflexivity.
  - rewrite (dataUi_run env aqi station u Hinit). cbv zeta.
    destruct (dismissed (uiEventQueue env (views u)));
      cbn [effects app renders].
    + rewrite renders_app, renders_polls. reflexivity.
    + rewrite renders_polls. reflexivity.
Qed.

(** The rectangle of a widget, and whether two rectangles share a cell;
    a rectangle [(x1, y1, x2, y2)] holds the cells with [x1 <= x < x2] and
    [y1 <= y < y2]. *)
Definition rectOf (d : Drawable) : Rectangle :=
  match d with
  | DGauge g => GaugeRect g
  | DList l => ListRect l
  end.

Definition overlap (a b : Rectangle) : Prop :=
  let '(ax1, ay1, ax2, ay2) := a in
  let '(bx1, by1, bx2, by2) := b in
  ax1 < bx2 /\ bx1 < ax2 /\ ay1 < by2 /\ by1 < ay2.

Definition inside (a b : Rectangle) : Prop :=
  let '(ax1, ay1, ax2, ay2) := a in
  let '(bx1, by1, bx2, by2) := b in
  bx1 <= ax1 /\ ax2 <= bx2 /\ by1 <= ay1 /\ ay2 <= by2.

Lemma gaugeWidget_fields (env : Env) (aqi : float) (aqiInfo : AqiInfo.t) :
  Percent (gaugeWidget env aqi aqiInfo) = int env ((aqi / 500) * 100)%float
  /\ Title (gaugeWidget env aqi aqiInfo)
     = "Air Quality Index = " +:+ Go.Itoa (int env aqi)
  /\ GaugeRect (gaugeWidget env aqi aqiInfo) = (0, 0, 50, 5).
Proof.
  unfold gaugeWidget.
  repeat match goal with
         | |- context [if ?b then _ else _] => destruct b
         end; repeat split.
Qed.

(** X20: what is rendered for a station is the gauge in the rectangle
    (0,0,50,5), the pollutant list with its three rows in (50,0,100,5) and
    the location list with its four rows in (0,5,50,10); the rectangles do
    not depend on the data, no two of them share a cell, and all lie within
    100 columns and 10 rows. *)
Theorem widgets_do_not_overlap (env : Env) (aqi : float)
        (station : Station.t) (u : Ui) (ws : list Drawable) :
  In (EUiRender ws) (effects (dataUi env aqi station u)) ->
  exists g l l2,
    ws = [DGauge g; DList l; DList l2]
    /\ GaugeRect g = (0, 0, 50, 5)
    /\ ListRect l = (50, 0, 100, 5)
    /\ ListRect l2 = (0, 5, 50, 10)
    /\ Rows l
       = [ "Pollutant: " +:+ AqiInfo.Pollutant (Station.AqiInfo station);
           "Concentration: "
           +:+ Go.Itoa (int env (AqiInfo.Concentration
                                   (Station.AqiInfo station)));
           "Category: " +:+ AqiInfo.Category (Station.AqiInfo station) ]
    /\ Rows l2
       = [ "City: " +:+ Station.City station;
           "State: " +:+ Station.State station;
           "Place: " +:+ Station.Place station;
           "Updated At: " +:+ Station.UpdatedAt station ]
    /\ ~ overlap (GaugeRect g) (ListRect l)
    /\ ~ overlap (GaugeRect g) (ListRect l2)
    /\ ~ overlap (ListRect l) (ListRect l2)
    /\ Forall (fun d => inside (rectOf d) (0, 0, 100, 10)) ws.
Proof.
  intros Hin. apply dataUi_renders in Hin. subst ws.
  unfold viewOf. do 3 eexists. split; [reflexivity|].
  destruct (gaugeWidget_fields env aqi (Station.AqiInfo station))
    as [_ [_ Hrect]].
  rewrite Hrect.
  repeat split; try (cbn; lia).
  repeat constructor; cbn [rectOf]; try rewrite Hrect; cbn; lia.
Qed.

Lemma widgets_do_not_overlap_witness :
  exists g l l2,
    viewOf (Sample.world O) 250%float Sample.gulberg
    = [DGauge g; DList l; DList l2]
    /\ GaugeRect g = (0, 0, 50, 5)
    /\ ListRect l = (50, 0, 100, 5)
    /\ ListRect l2 = (0, 5, 50, 10)
    /\ Rows l = ["Pollutant: PM2.5"; "Concentration: 152";
                 "Category: Very Unhealthy"]
    /\ Rows l2 = ["City: Lahore"; "State: Punjab"; "Place: Gulberg";
                  "Updated At: 2022-03-01T10:00:00Z"].
Proof.
  assert (Hin : In (EUiRender (viewOf (Sample.world O) 250%float
                                 Sample.gulberg))
                   (effects (dataUi (Sample.world O) 250%float
                               Sample.gulberg start)))
    by (simpl; right; left; reflexivity).
  destruct (widgets_do_not_overlap (Sample.world O) 250%float Sample.gulberg
              start _ Hin)
    as [g [l [l2 [Hws [Hg [Hl [Hl2 [Hr [Hr2 _]]]]]]]]].
  exists g, l, l2. repeat split; assumption.
Defined.

(** X21: of a station, only the six fields of the summary reach the log
    and the terminal: two stations with the same city, place, state,
    updated-at, AQI and AQI-info give the same run, whatever their pollutant
    readings, coordinates, codes and division are. *)
Theorem station_run_depends_on_summary (env : Env) (s s' : Station.t)
        (u : Ui) :
  summaryOf s = summaryOf s' ->
  reportStation env s u = reportStation env s' u.
Proof.
  destruct s, s'. unfold summaryOf. cbn. intros H.
  injection H as -> -> -> -> -> ->. reflexivity.
Qed.

Lemma station_run_depends_on_summary_witness :
  reportStation (Sample.world O) Sample.gulberg start
  = reportStation (Sample.world O)
      (Station.mk 9%float 9%float 9%float 9%float 9%float "XX" "Elsewhere"
                  0%float 0%float "00000" "Lahore" "Gulberg" "Punjab"
                  "2022-03-01T10:00:00Z" 250%float
                  (AqiInfo.mk "PM2.5" 152%float "Very Unhealthy"))
      start.
Proof.
  apply (station_run_depends_on_summary (Sample.world O)). reflexivity.
Defined.

(** ** The gauge for whole AQI values (lines 157-160) *)

Lemma int_of_truncate (env : Env) (f : float) (z : Z) :
  Go.truncate f = Some z -> Go.minInt <= z <= Go.maxInt -> int env f = z.
Proof.
  intros Hz [Hlo Hhi]. unfold int, Go.int. rewrite Hz.
  apply Z.leb_le in Hlo, Hhi. rewrite Hlo, Hhi. reflexivity.
Qed.

(** For a whole AQI up to 5000: the conversion back gives the number, and
    the percentage is the truncated exact quotient or one less. *)
Definition wholeAqiChecks (n : Z) : bool :=
  match Go.truncate (wholeAqi n),
        Go.truncate ((wholeAqi n / 500) * 100)%float with
  | Some z, Some p =>
      (z =? n) && (exactPercent n - 1 <=? p) && (p <=? exactPercent n)
  | _, _ => false
  end.

Lemma wholeAqiChecks_upto_5000 :
  forallb wholeAqiChecks (map Z.of_nat (seq 0 (Z.to_nat 5001))) = true.
Proof. vm_compute. reflexivity. Qed.

Lemma wholeAqiChecks_holds (n : Z) :
  0 <= n <= 5000 ->
  exists p,
    Go.truncate (wholeAqi n) = Some n
    /\ Go.truncate ((wholeAqi n / 500) * 100)%float = Some p
    /\ exactPercent n - 1 <= p <= exactPercent n.
Proof.
  intros Hn.
  assert (Hin : In n (map Z.of_nat (seq 0 (Z.to_nat 5001)))).
  { apply in_map_iff. exists (Z.to_nat n). split; [lia|].
    apply in_seq. lia. }
  pose proof (proj1 (forallb_forall _ _) wholeAqiChecks_upto_5000 n Hin) as H.
  unfold wholeAqiChecks in H.
  destruct (Go.truncate (wholeAqi n)) as [z|]; [|discriminate].
  destruct (Go.truncate ((wholeAqi n / 500) * 100)%float) as [p|];
    [|discriminate].
  apply andb_true_iff in H. destruct H as [H Hhi].
  apply andb_true_iff in H. destruct H as [Heq Hlo].
  apply Z.eqb_eq in Heq. apply Z.leb_le in Hlo, Hhi. subst z.
  exists p. repeat split; assumption.
Qed.

Lemma exactPercent_bounds (n : Z) :
  0 <= n -> 0 <= exactPercent n /\ 5 * exactPercent n <= n < 5 * exactPercent n + 5.
Proof.
  intros Hn. unfold exactPercent.
  pose proof (Z.div_mod (n * 100) 500 ltac:(lia)) as Hdm.
  pose proof (Z.mod_pos_bound (n * 100) 500 ltac:(lia)) as Hmod.
  lia.
Qed.

(** X22: for a whole AQI from 0 to 500 the percentage of the gauge lies
    between 0 and 100, and it is the exact quotient [aqi * 100 / 500]
    truncated, except at 145, 285 and 290, where the float64 rounding of
    the quotient and the product makes it one less. *)
Theorem whole_aqi_percent (env : Env) (n : Z) (aqiInfo : AqiInfo.t) :
  0 <= n <= 500 ->
  let p := Percent (gaugeWidget env (wholeAqi n) aqiInfo) in
  0 <= p <= 100
  /\ p = (if roundedDown n then exactPercent n - 1 else exactPercent n).
Proof.
  intros Hn. cbv zeta.
  destruct (gaugeWidget_fields env (wholeAqi n) aqiInfo) as [-> _].
  destruct (gauge_percent_on_whole_aqi env n Hn) as [Heq Hb].
  split; assumption.
Qed.

Lemma whole_aqi_percent_witness :
  Percent (gaugeWidget (Sample.world O) (wholeAqi 145)
             (Station.AqiInfo Sample.clifton)) = 28.
Proof.
  refine (proj2 (whole_aqi_percent (Sample.world O) 145
                   (Station.AqiInfo Sample.clifton) _)).
  lia.
Defined.

(** X23: the percentage is not clamped to 100.  For a whole AQI up to 5000
    it is the exact truncated quotient or one less, so that from an AQI of
    510 on it is above 100. *)
Theorem percent_is_not_clamped (env : Env) (n : Z) (aqiInfo : AqiInfo.t) :
  0 <= n <= 5000 ->
  let p := Percent (gaugeWidget env (wholeAqi n) aqiInfo) in
  exactPercent n - 1 <= p <= exactPercent n
  /\ (510 <= n -> 100 < p).
Proof.
  intros Hn. cbv zeta.
  destruct (gaugeWidget_fields env (wholeAqi n) aqiInfo) as [-> _].
  destruct (wholeAqiChecks_holds n Hn) as [p [_ [Hp Hb]]].
  assert (Hexact := exactPercent_bounds n ltac:(lia)).
  rewrite (int_of_truncate env _ p Hp)
    by (unfold Go.minInt, Go.maxInt; lia).
  split; [exact Hb | lia].
Qed.

Lemma percent_is_not_clamped_witness :
  100 < Percent (gaugeWidget (Sample.world O) (wholeAqi 600)
                   (Station.AqiInfo Sample.gulberg)).
Proof.
  refine (proj2 (percent_is_not_clamped (Sample.world O) 600
                   (Station.AqiInfo Sample.gulberg) _) _); lia.
Defined.

(** X24: for a whole AQI up to 5000 the title of the gauge shows that
    number in decimal, whatever the category. *)
Theorem whole_aqi_title (env : Env) (n : Z) (aqiInfo : AqiInfo.t) :
  0 <= n <= 5000 ->
  Title (gaugeWidget env (wholeAqi n) aqiInfo)
  = "Air Quality Index = " +:+ Go.Itoa n.
Proof.
  intros Hn.
  destruct (gaugeWidget_fields env (wholeAqi n) aqiInfo) as [_ [-> _]].
  destruct (wholeAqiChecks_holds n Hn) as [p [Hz _]].
  rewrite (int_of_truncate env _ n Hz)
    by (unfold Go.minInt, Go.maxInt; lia).
  reflexivity.
Qed.

Lemma whole_aqi_title_witness :
  Title (gaugeWidget (Sample.world O) (wholeAqi 152)
           (Station.AqiInfo Sample.gulberg))
  = "Air Quality Index = 152".
Proof.
  apply (whole_aqi_title (Sample.world O) 152
           (Station.AqiInfo Sample.gulberg)).
  lia.
Defined.

(** ** The flags (lines 27-36) *)

Record FlagDef := mkFlagDef {
  flagName : string;
  flagShorthand : string;
  flagValue : string;
  flagUsage : string
}.

(** [PersistentFlags().StringP(name, shorthand, value, usage)] adds one
    definition to the flag set. *)
Definition StringP (name shorthand value usage : string)
           (fs : list FlagDef) : list FlagDef :=
  fs ++ [mkFlagDef name shorthand value usage].

(** The flag set of the command after [init]. *)
Definition init : list FlagDef :=
  let fs := [] in
  let fs := StringP "city" "c" "" "--city=<city name> or -c <city name>" fs in
  let fs := StringP "postal" "p" "" "--postal=<postal code> or -p <postal code>" fs in
  let fs := StringP "country" "o" "" "--country=<country name> or -o <country name>" fs in
  let fs := StringP "latitude" "l" "" "--latitude=<latitude> or -l <latitude>" fs in
  let fs := StringP "longitude" "g" "" "--longitude=<longitude> or -g <longitude>" fs in
  fs.

(** [cmd.Flag(name)]: the definition of that name, if there is one. *)
Definition lookupFlag (fs : list FlagDef) (name : string) : option FlagDef :=
  find (fun f => String.eqb (flagName f) name) fs.

(** The five values [getAqi] reads (lines 83-87) when no flag is given on
    the command line; [None] when one of the names is not defined, where
    the lookup gives nil. *)
Definition unsetCommand (fs : list FlagDef) : option Flag.Command :=
  match lookupFlag fs "city", lookupFlag fs "postal",
        lookupFlag fs "country", lookupFlag fs "latitude",
        lookupFlag fs "longitude" with
  | Some c, Some p, Some o, Some l, Some g =>
      Some (Flag.mk (flagValue c) (flagValue p) (flagValue o)
                    (flagValue l) (flagValue g))
  | _, _, _, _, _ => None
  end.

(** X25: [init] defines the five flags under pairwise distinct names and
    pairwise distinct one-letter shorthands, so that no definition shadows
    another; every name [getAqi] reads is defined; and with no flag given
    on the command line the command is the usage error, in every world. *)
Theorem flags_registered (env : Env) (u : Ui) :
  NoDup (map flagName init)
  /\ NoDup (map flagShorthand init)
  /\ Forall (fun f => String.length (flagShorthand f) = 1%nat) init
  /\ exists cmd,
       unsetCommand init = Some cmd
       /\ getAqi env cmd u = mkRun (Stop (Exit 1)) [ELog usageMessage] u.
Proof.
  split; [|split; [|split]].
  - cbn. repeat (constructor; [cbn; intuition discriminate|]). constructor.
  - cbn. repeat (constructor; [cbn; intuition discriminate|]). constructor.
  - repeat constructor.
  - eexists. split; [reflexivity|].
    apply getAqi_usage_error. reflexivity.
Qed.

